(** * A recommendation dashboard: the recommender and the data access layer

    Shallow embedding of [app.py].  The program is a Streamlit page over a
    SQLite file; the parts embedded here are

    - the recommender ([get_similarity_matrix], [get_recommendations]) with
      the library calls it makes (pandas column access and assignment,
      scikit-learn's [LabelEncoder] and [cosine_similarity], numpy's
      [argsort] and slicing), and Streamlit's memoisation of it;
    - the data access layer ([create_tables], [run_read_sql],
      [add_customer], [insert_synthetic_data], the memoised accessors and
      their dictionaries) and the forms and buttons of [dashboard], with the
      rerun of the page that every click starts;
    - the column handling of [display_beautified_dataframe].

    Conventions.  A pandas [DataFrame] is a finite map from column names to
    typed columns: text columns hold strings and numeric columns integers,
    as the TEXT and INTEGER columns of the schema do, without NULLs.  The
    two frames the recommender mutates are threaded as state.  Python
    exceptions are values of [exn], and a computation is a state transformer
    that returns either a value or a raised exception together with the
    state reached.

    Numbers.  In the recommender a finite [float64] is taken for the real
    number it stands for, NaN and the infinities, which pandas produces on
    a division by zero, being kept as separate values.  That is enough for
    what does not depend on rounding: which calls raise, the shape of the
    matrix, the order of the scores, entries that are exactly 0 or 1.
    Where rounding matters (an entry of the matrix can exceed 1 by a
    rounding error) the same arithmetic is repeated on IEEE 754 binary64
    numbers in [Binary64].  A character of a [string] stands for a code
    point below 256. *)

From Stdlib Require Floats.
From Stdlib Require Import Reals Lra Psatz ZArith String Ascii.
From stdpp Require Import base option gmap strings list sorting.

#[local] Open Scope Z_scope.

(** ** Python results and exceptions *)

Inductive exn : Type :=
| KeyError (key : string)
| TypeError (what : string)
| ValueError (msg : string)
| IndexError
| UnboundLocalError (var : string)
| SqliteError (msg : string)
| OtherError (msg : string).

Inductive result (A : Type) : Type :=
| Ok (a : A)
| Raise (e : exn).
Arguments Ok {A} a.
Arguments Raise {A} e.

#[global] Instance result_ret : MRet result := λ A a, Ok a.
#[global] Instance result_bind : MBind result :=
  λ A B f r, match r with Ok a => f a | Raise e => Raise e end.

(** A computation over a mutable state [S]: the state reached is returned
    also when an exception is raised, since the mutations made before the
    raise persist. *)
Definition M (S A : Type) : Type := S → result A * S.

#[global] Instance M_ret {S} : MRet (M S) := λ A a s, (Ok a, s).
#[global] Instance M_bind {S} : MBind (M S) :=
  λ A B f m s, match m s with
               | (Ok a, s') => f a s'
               | (Raise e, s') => (Raise e, s')
               end.

Definition raise {S A} (e : exn) : M S A := λ s, (Raise e, s).
Definition lift {S A} (r : result A) : M S A := λ s, (r, s).
Definition get_state {S} : M S S := λ s, (Ok s, s).
Definition modify {S} (f : S → S) : M S unit := λ s, (Ok tt, f s).

(** ** Numbers *)

Inductive float64 : Type :=
| Finite (x : R)
| NaN
| PosInf
| NegInf.

#[global] Instance R_eq_dec : EqDecision R := Req_dec_T.
#[global] Instance Rle_rel_dec : RelDecision Rle := Rle_dec.

(** [Series.max()] of an integer column: NaN (here [None]) on an empty one. *)
Definition series_max (l : list Z) : option Z :=
  match l with
  | [] => None
  | x :: l' => Some (foldl Z.max x l')
  end.

(** [x / m], pandas' true division of an integer by the column maximum:
    a division by zero gives NaN or an infinity, not an exception. *)
Definition truediv (x : Z) (m : option Z) : float64 :=
  match m with
  | None => NaN
  | Some m =>
      if m =? 0 then
        if x =? 0 then NaN else if 0 <? x then PosInf else NegInf
      else Finite (IZR x / IZR m)
  end.

(** [col / col.max()] on an integer column. *)
Definition div_by_max (l : list Z) : list float64 :=
  (λ x, truediv x (series_max l)) <$> l.

(** ** Data frames *)

Inductive column : Type :=
| ColStr (l : list string)
| ColInt (l : list Z)
| ColFloat (l : list float64).

Definition column_length (c : column) : nat :=
  match c with
  | ColStr l => length l
  | ColInt l => length l
  | ColFloat l => length l
  end.

Abbreviation DataFrame := (gmap string column).

Inductive frame : Type := Customers | Products.

Record frames : Type := Frames {
  customers : DataFrame;
  products : DataFrame
}.

Definition the_frame (f : frame) (s : frames) : DataFrame :=
  match f with Customers => customers s | Products => products s end.

(** [df[c]] *)
Definition getitem (f : frame) (c : string) : M frames column :=
  λ s, match the_frame f s !! c with
       | Some col => (Ok col, s)
       | None => (Raise (KeyError c), s)
       end.

Definition getitem_str (f : frame) (c : string) : M frames (list string) :=
  col ← getitem f c;
  match col with
  | ColStr l => mret l
  | _ => raise (TypeError c)
  end.

Definition getitem_int (f : frame) (c : string) : M frames (list Z) :=
  col ← getitem f c;
  match col with
  | ColInt l => mret l
  | _ => raise (TypeError c)
  end.

Definition getitem_float (f : frame) (c : string) : M frames (list float64) :=
  col ← getitem f c;
  match col with
  | ColFloat l => mret l
  | _ => raise (TypeError c)
  end.

(** [df[c] = v]: the frame object itself is updated. *)
Definition setitem (f : frame) (c : string) (v : column) : M frames unit :=
  modify (λ s, match f with
               | Customers => Frames (<[c := v]> (customers s)) (products s)
               | Products => Frames (customers s) (<[c := v]> (products s))
               end).

(** ** scikit-learn's LabelEncoder *)

Fixpoint insert_unique (s : string) (l : list string) : list string :=
  match l with
  | [] => [s]
  | x :: l' =>
      match String.compare s x with
      | Lt => s :: l
      | Eq => l
      | Gt => x :: insert_unique s l'
      end
  end.

(** [np.unique]: the distinct labels in increasing order. *)
Definition np_unique (y : list string) : list string :=
  foldr insert_unique [] y.

Record LabelEncoder : Type := { classes_ : list string }.

Definition fit (y : list string) : LabelEncoder :=
  {| classes_ := np_unique y |}.

Fixpoint index_of (s : string) (l : list string) : option Z :=
  match l with
  | [] => None
  | x :: l' => if String.eqb s x then Some 0 else Z.succ <$> index_of s l'
  end.

Fixpoint transform (le : LabelEncoder) (y : list string) : result (list Z) :=
  match y with
  | [] => Ok []
  | s :: y' =>
      match index_of s (classes_ le) with
      | None => Raise (ValueError "y contains previously unseen labels")
      | Some c => cs ← transform le y'; Ok (c :: cs)
      end
  end.

Definition fit_transform (y : list string) : result (LabelEncoder * list Z) :=
  let le := fit y in
  codes ← transform le y; Ok (le, codes).

(** ** scikit-learn's cosine_similarity *)

Abbreviation vec := (R * R)%type.

Definition finite (x : float64) : option R :=
  match x with Finite r => Some r | _ => None end.

Definition finite_vec (v : float64 * float64) : option vec :=
  a ← finite v.1; b ← finite v.2; Some (a, b).

(** [check_array]: at least one sample, and neither NaN nor infinity. *)
Definition check_array (X : list (float64 * float64)) : result (list vec) :=
  match X with
  | [] => Raise (ValueError "Found array with 0 sample(s)")
  | _ =>
      match mapM finite_vec X with
      | Some V => Ok V
      | None => Raise (ValueError "Input contains NaN or infinity")
      end
  end.

Definition l2norm (v : vec) : R := sqrt (v.1 * v.1 + v.2 * v.2).

(** [normalize]: a row is divided by its norm, a zero norm being replaced
    by one, so that a zero row stays zero.  (scikit-learn also takes a norm
    below ten machine epsilons for zero; with exact numbers only the zero
    norm is.) *)
Definition normalize (v : vec) : vec :=
  let n := l2norm v in
  let n := if decide (n = 0%R) then 1%R else n in
  ((v.1 / n)%R, (v.2 / n)%R).

Definition dot (u v : vec) : R := (u.1 * v.1 + u.2 * v.2)%R.

Abbreviation matrix := (list (list R)).

Definition cosine_similarity (X Y : list (float64 * float64)) : result matrix :=
  Xv ← check_array X;
  Yv ← check_array Y;
  let X_normalized : list vec := normalize <$> (Xv : list vec) in
  let Y_normalized : list vec := normalize <$> (Yv : list vec) in
  Ok ((λ x, dot x <$> Y_normalized) <$> X_normalized).

(** [df[[a, b]].values] for a float column [a] and an integer column [b]. *)
Definition values2 (a : list float64) (b : list Z) : list (float64 * float64) :=
  zip a ((λ c, Finite (IZR c)) <$> b).

(** ** The same arithmetic in binary64

    NumPy computes with IEEE 754 binary64 numbers.  The definitions below
    repeat the arithmetic of lines 66, 78 and 82 to 88 on those numbers, the
    primitive floats of the kernel, so that what the code returns can be
    computed bit for bit.  Here a division by zero is what IEEE 754 makes
    of it: 0/0 is NaN and x/0 an infinity. *)
Module Binary64.
Import PrimFloat SpecFloat FloatOps.

(** An [int64] as a [float64], rounded to nearest. *)
Definition of_Z (z : Z) : float :=
  SF2Prim (binary_normalize prec emax z 0 false).

(** [x / m] for integers [x] and [m]; the maximum of an empty column is
    NaN. *)
Definition truediv (x : Z) (m : option Z) : float :=
  match m with
  | None => nan
  | Some m => (of_Z x / of_Z m)%float
  end.

(** [col / col.max()] *)
Definition div_by_max (l : list Z) : list float :=
  (λ x, truediv x (series_max l)) <$> l.

Abbreviation vec := (float * float)%type.

(** [df[[a, b]].values] for a float column [a] and an integer column [b]. *)
Definition values2 (a : list float) (b : list Z) : list vec :=
  zip a (of_Z <$> b).

Definition finite (x : float) : bool :=
  negb (is_nan x) && negb (is_infinity x).

Definition check_array (X : list vec) : result (list vec) :=
  match X with
  | [] => Raise (ValueError "Found array with 0 sample(s)")
  | _ =>
      if forallb (λ v : vec, finite v.1 && finite v.2) X then Ok X
      else Raise (ValueError "Input contains NaN or infinity")
  end.

Definition l2norm (v : vec) : float := sqrt (v.1 * v.1 + v.2 * v.2).

(** The machine epsilon of binary64, 2^-52. *)
Definition eps : float := (of_Z 1 / of_Z (2 ^ 52))%float.

(** What a row is divided by: its norm, or 1 when the norm is below ten
    machine epsilons, which is scikit-learn's test for a zero norm. *)
Definition scale (v : vec) : float :=
  let n := l2norm v in
  if (n <? of_Z 10 * eps)%float then of_Z 1 else n.

Definition normalize (v : vec) : vec :=
  ((v.1 / scale v)%float, (v.2 / scale v)%float).

Definition dot (u v : vec) : float := (u.1 * v.1 + u.2 * v.2)%float.

Definition cosine_similarity (X Y : list vec) : result (list (list float)) :=
  X ← check_array X;
  Y ← check_array Y;
  let X_normalized : list vec := normalize <$> (X : list vec) in
  let Y_normalized : list vec := normalize <$> (Y : list vec) in
  Ok ((λ x, dot x <$> Y_normalized) <$> X_normalized).

(** Lines 66 and 78 to 88 on the two numeric columns and on the codes that
    the joint encoder has assigned. *)
Definition similarity (net_worth risk_profile_encoded
                         min_investment risk_level_encoded : list Z)
    : result (list (list float)) :=
  cosine_similarity
    (values2 (div_by_max net_worth) risk_profile_encoded)
    (values2 (div_by_max min_investment) risk_level_encoded).

End Binary64.

(** ** The recommender *)

(** The body of [get_similarity_matrix], lines 62 to 90, on the two frames
    it is given; [Memoised.get_similarity_matrix] below is the function
    with its decorator. *)
Definition get_similarity_matrix : M frames matrix :=
  (* Encode categorical variables *)
  risk_profile ← getitem_str Customers "risk_profile";
  '(le, codes) ← lift (fit_transform risk_profile);
  setitem Customers "risk_profile_encoded" (ColInt codes);;
  risk_level ← getitem_str Products "risk_level";
  codes ← lift (transform le risk_level);
  setitem Products "risk_level_encoded" (ColInt codes);;
  min_investment ← getitem_int Products "min_investment";
  setitem Products "min_investment_normalized"
    (ColFloat (div_by_max min_investment));;
  (* Combine risk levels for consistent encoding *)
  risk_profile ← getitem_str Customers "risk_profile";
  risk_level ← getitem_str Products "risk_level";
  let risk_levels := risk_profile ++ risk_level in
  let le := fit risk_levels in
  (* Encode risk profiles *)
  risk_profile ← getitem_str Customers "risk_profile";
  codes ← lift (transform le risk_profile);
  setitem Customers "risk_profile_encoded" (ColInt codes);;
  risk_level ← getitem_str Products "risk_level";
  codes ← lift (transform le risk_level);
  setitem Products "risk_level_encoded" (ColInt codes);;
  (* Normalize net worth for similarity calculation *)
  net_worth ← getitem_int Customers "net_worth";
  setitem Customers "net_worth_normalized"
    (ColFloat (div_by_max net_worth));;
  (* Create feature vectors *)
  nwn ← getitem_float Customers "net_worth_normalized";
  rpe ← getitem_int Customers "risk_profile_encoded";
  let customer_features := values2 nwn rpe in
  mnn ← getitem_float Products "min_investment_normalized";
  rle ← getitem_int Products "risk_level_encoded";
  let product_features := values2 mnn rle in
  (* Calculate similarity *)
  lift (cosine_similarity customer_features product_features).

(** [numpy.argsort]: the positions of [scores] in increasing order of score.
    numpy does not promise an order among equal scores; the merge sort used
    here keeps them in their original order, and no theorem below depends on
    that choice. *)
Definition score_at (scores : list R) (i : nat) : R := default 0%R (scores !! i).

Definition by_score (scores : list R) : relation nat :=
  λ i j, (score_at scores i <= score_at scores j)%R.

#[global] Instance by_score_dec scores : RelDecision (by_score scores) :=
  λ i j, Rle_dec (score_at scores i) (score_at scores j).

Definition argsort (scores : list R) : list nat :=
  merge_sort (by_score scores) (seq 0 (length scores)).

(** [a[start:]] with Python's rules for a negative or too large [start]. *)
Definition slice_from {A} (start : Z) (a : list A) : list A :=
  let n := Z.of_nat (length a) in
  let start := if start <? 0 then Z.max 0 (start + n) else Z.min start n in
  drop (Z.to_nat start) a.

(** [rows[rows == v].index[0]] on a freshly read frame, whose index is the
    row position. *)
Fixpoint first_position (v : Z) (rows : list Z) : option nat :=
  match rows with
  | [] => None
  | x :: rows' => if x =? v then Some 0%nat else S <$> first_position v rows'
  end.

Definition column_iloc (idx : list nat) (c : column) : option column :=
  match c with
  | ColStr l => ColStr <$> mapM (λ i, l !! i) idx
  | ColInt l => ColInt <$> mapM (λ i, l !! i) idx
  | ColFloat l => ColFloat <$> mapM (λ i, l !! i) idx
  end.

(** [df.iloc[idx]]: the rows at the positions [idx], in that order. *)
Definition iloc (df : DataFrame) (idx : list nat) : result DataFrame :=
  if decide (map_Forall (λ _ c, is_Some (column_iloc idx c)) df)
  then Ok (omap (column_iloc idx) df)
  else Raise IndexError.

Definition product_indices (similarity_scores : list R) (top_n : Z) : list nat :=
  reverse (slice_from (- top_n) (argsort similarity_scores)).

Definition get_recommendations (customer_id : Z) (top_n : Z) : M frames DataFrame :=
  ids ← getitem_int Customers "id";
  customer_idx ← match first_position customer_id ids with
                 | Some i => mret i
                 | None => raise IndexError
                 end;
  similarity ← get_similarity_matrix;
  similarity_scores ← match (similarity : matrix) !! (customer_idx : nat) with
                      | Some row => mret row
                      | None => raise IndexError
                      end;
  s ← get_state;
  lift (iloc (products s) (product_indices similarity_scores top_n)).

(** ** The memoised recommender

    [get_similarity_matrix] is decorated with [@st.cache_resource] (line
    60).  Streamlit keys a call by the contents of the two frames it is
    given (a hash of their column names, types and values, taken before
    the body runs; two frames share a key here exactly when they are
    equal).  On a hit it hands out the matrix kept under that key and the
    body does not run, so the frames passed are not touched; on a miss the
    body runs on the frames passed and what it returns is kept.  A call
    that raises keeps nothing. *)

#[global] Instance float64_eq_dec : EqDecision float64.
Proof. solve_decision. Defined.

#[global] Instance column_eq_dec : EqDecision column.
Proof. solve_decision. Defined.

Module Memoised.

Abbreviation key := (DataFrame * DataFrame)%type.

(** The entries kept for the function, the latest first. *)
Abbreviation cache := (list (key * matrix)).

Definition cached (k : key) (c : cache) : option matrix :=
  (λ found, found.2.2) <$> list_find (λ entry, entry.1 = k) c.

Definition get_similarity_matrix : M (cache * frames) matrix :=
  λ '(c, s),
    let k := (customers s, products s) in
    match cached k c with
    | Some K => (Ok K, (c, s))
    | None =>
        match get_similarity_matrix s with
        | (Ok K, s') => (Ok K, ((k, K) :: c, s'))
        | (Raise e, s') => (Raise e, (c, s'))
        end
    end.

End Memoised.

(** ** The SQLite file *)

Inductive value : Type :=
| VNull
| VInt (n : Z)
| VText (s : string).

#[global] Instance value_eq_dec : EqDecision value.
Proof. solve_decision. Defined.

(** A table: its column names in declaration order, the name of its
    [INTEGER PRIMARY KEY] column, and its rows, each aligned with [columns]. *)
Record table : Type := Table {
  columns : list string;
  primary_key : string;
  rows : list (list value)
}.

Abbreviation database := (gmap string table).

(** [CREATE TABLE IF NOT EXISTS] *)
Definition create_table (name : string) (cols : list string) (pk : string)
    (d : database) : database :=
  match d !! name with
  | Some _ => d
  | None => <[name := Table cols pk []]> d
  end.

Definition create_tables (d : database) : database :=
  let d := create_table "referrers"
             ["user_id"; "name"; "points"; "badges"] "user_id" d in
  let d := create_table "customers"
             ["id"; "customer_name"; "net_worth"; "risk_profile";
              "purchase_history"] "id" d in
  let d := create_table "referrals"
             ["id"; "referrer_name"; "referral_date"; "customer_name";
              "product_referred"; "referral_status"; "referrer_points"] "id" d in
  create_table "products"
    ["id"; "product_name"; "agreement_terms"; "referral_reward"; "risk_level";
     "min_investment"] "id" d.

Definition cell (t : table) (c : string) (row : list value) : value :=
  default VNull (row !! default 0%nat (fst <$> list_find (λ x, x = c) (columns t))).

(** The key SQLite gives to a row inserted without one: one more than the
    largest key in the table, and 1 in an empty table.  (That is the rule
    for the keys the program makes, which start at 1 and stay far below
    2^63 - 1, where SQLite has no next key; in [referrers], whose key is
    not AUTOINCREMENT, SQLite follows a largest key below 0, say -5, by
    -4.) *)
Definition next_key (t : table) : Z :=
  1 + foldr Z.max 0
        ((λ row, match cell t (primary_key t) row with VInt n => n | _ => 0 end)
           <$> rows t).

Definition bound (cols : list string) (vals : list value) (c : string)
    : option value :=
  (λ found, found.2.2) <$> list_find (λ cv, cv.1 = c) (zip cols vals).

Definition new_row (t : table) (cols : list string) (vals : list value)
    : list value :=
  (λ c, match bound cols vals c with
        | Some v => v
        | None => if decide (c = primary_key t) then VInt (next_key t) else VNull
        end) <$> columns t.

(** [INSERT INTO name (cols) VALUES (vals)]: SQLite rejects the statement,
    before any row is written, when the table or one of the named columns
    does not exist.  (The integers bound are taken to fit 64 bits, as those
    of the program do; Python refuses to bind a larger one.) *)
Definition execute_insert (name : string) (cols : list string)
    (vals : list value) (d : database) : result database :=
  match d !! name with
  | None => Raise (SqliteError ("no such table: " +:+ name))
  | Some t =>
      match list_find (λ c, c ∉ columns t) cols with
      | Some (_, c) =>
          Raise (SqliteError
                   ("table " +:+ name +:+ " has no column named " +:+ c))
      | None =>
          Ok (<[name := Table (columns t) (primary_key t)
                              (rows t ++ [new_row t cols vals])]> d)
      end
  end.

(** ** The page *)

Inductive ui_event : Type :=
| st_title (text : string)
| st_error (msg : string)
| st_success (msg : string).

(** The state a form handler works on: the committed content of
    [recommendation.db] and what the page has shown so far. *)
Record app : Type := App {
  db : database;
  ui : list ui_event
}.

Definition render (e : ui_event) : M app unit :=
  modify (λ a, App (db a) (ui a ++ [e])).

(** [sqlite3.connect('recommendation.db')]: a connection works on its own
    copy of the content until [commit]. *)
Definition connect : M app database := λ a, (Ok (db a), a).

Definition commit (conn : database) : M app unit :=
  modify (λ a, App conn (ui a)).

Definition message (e : exn) : string :=
  match e with
  | KeyError m | TypeError m | ValueError m | UnboundLocalError m
  | SqliteError m | OtherError m => m
  | IndexError => "index out of range"
  end.

(** [except sqlite3.Error] *)
Definition is_sqlite_error (e : exn) : bool :=
  match e with SqliteError _ => true | _ => false end.

(** [try: body  except <handles> as e: handler e] *)
Definition try_except {S A} (body : M S A) (handles : exn → bool)
    (handler : exn → M S A) : M S A :=
  λ s, match body s with
       | (Raise e, s') => if handles e then handler e s' else (Raise e, s')
       | r => r
       end.

(** [try: body  finally: final].  An exception raised by [final] replaces
    the outcome of [body]. *)
Definition try_finally {S A} (body : M S A) (final : M S unit) : M S A :=
  λ s, match body s with
       | (r, s') =>
           match final s' with
           | (Ok _, s'') => (r, s'')
           | (Raise e, s'') => (Raise e, s'')
           end
       end.

(** [str.strip], and the truth value of a string. *)
Definition isspace (c : ascii) : bool :=
  let n := nat_of_ascii c in
  ((9 <=? n) && (n <=? 13) || (28 <=? n) && (n <=? 32)
   || (n =? 133) || (n =? 160))%nat.

Fixpoint lstrip (s : string) : string :=
  match s with
  | EmptyString => EmptyString
  | String c s' => if isspace c then lstrip s' else s
  end.

Fixpoint rstrip (s : string) : string :=
  match s with
  | EmptyString => EmptyString
  | String c s' =>
      match rstrip s' with
      | EmptyString => if isspace c then EmptyString else String c EmptyString
      | r => String c r
      end
  end.

Definition strip (s : string) : string := rstrip (lstrip s).

Definition truthy (s : string) : bool :=
  match s with EmptyString => false | _ => true end.

(** [frame.set_index(key)[val].to_dict()] on the rows of a table: a later
    row replaces an earlier one with the same key.  The accessors of the
    page are memoised by Streamlit; here they read the store directly, and
    the order of the keys is not kept. *)
Definition to_dict (t : table) (key val : string) : list (value * value) :=
  foldl (λ d row, (cell t key row, cell t val row)
                    :: filter (λ kv, kv.1 ≠ cell t key row) d)
        [] (rows t).

Definition dict_getitem (d : list (value * value)) (k : value) : result value :=
  match list_find (λ kv, kv.1 = k) d with
  | Some (_, kv) => Ok kv.2
  | None => Raise (KeyError "")
  end.

(** [get_referrers()[[a, b]]]: both columns have to exist. *)
Definition select_two (name a b : string) (d : database) : result table :=
  match d !! name with
  | None => Raise (OtherError ("no such table: " +:+ name))
  | Some t =>
      if decide (a ∈ columns t ∧ b ∈ columns t) then Ok t
      else Raise (KeyError "not in index")
  end.

Definition get_referrers_dict : M app (list (value * value)) :=
  a ← get_state;
  t ← lift (select_two "referrers" "user_id" "name" (db a));
  mret (to_dict t "name" "user_id").

Definition get_products_dict : M app (list (value * value)) :=
  a ← get_state;
  t ← lift (select_two "products" "id" "product_name" (db a));
  mret (to_dict t "product_name" "id").

(** The body of [if submitted:] in the referral form of [dashboard];
    [new_referral] below has the lines around it. *)
Definition submit_referral (referrer_name : value) (customer_name : string)
    (product_name : value) (now : string) : M app unit :=
  if negb (truthy (strip customer_name)) then
    render (st_error "Please enter a customer name.")
  else
    (* Map names back to IDs *)
    referrers ← get_referrers_dict;
    referrer_id ← lift (dict_getitem referrers referrer_name);
    products ← get_products_dict;
    product_id ← lift (dict_getitem products product_name);
    (* Insert into the referrals table *)
    conn ← connect;
    conn ← lift (execute_insert "referrals"
                   ["user_id"; "customer_name"; "product_id"; "status";
                    "timestamp"]
                   [referrer_id; VText customer_name; product_id;
                    VText "Pending"; VText now] conn);
    commit conn;;
    render (st_success "Referral submitted successfully!").

Definition add_customer (name : string) (net_worth : Z) (risk_profile : string)
    : M app bool :=
  try_except
    (conn ← connect;
     (* Insert customer details into the customers table *)
     conn ← lift (execute_insert "customers"
                    ["name"; "net_worth"; "risk_profile"]
                    [VText name; VInt net_worth; VText risk_profile] conn);
     commit conn;;
     mret true)
    is_sqlite_error
    (λ e, render (st_error ("An error occurred: " +:+ message e));;
          mret false).

(** ** Buttons, forms and reruns

    Streamlit runs the script of the page from the top after every
    interaction.  [st.button] and [st.form_submit_button] return [True] only
    in the run that a click on that very button has started; in every other
    run, the first one included, they return [False].  A run is started by
    at most one widget. *)
Inductive widget : Type :=
| refresh_data_button
| new_referral_button
| submit_referral_button
| new_customer_button
| add_customer_button
| clear_cache_button.

#[global] Instance widget_eq_dec : EqDecision widget.
Proof. solve_decision. Defined.

(** The value of the button [w] in a run started by [trigger] ([None] for
    the first run and for a run started by any other widget). *)
Definition button (trigger : option widget) (w : widget) : bool :=
  bool_decide (trigger = Some w).

(** Lines 316 to 345 of [dashboard]: the referral form is drawn, and its
    handler run, under [if col2.button("New Referral")].  [referrer_name],
    [customer_name] and [product_name] are the values the three widgets of
    the form have in this run.  ([get_referrals.clear()], which ends the
    handler, has nothing to clear here, where the accessors read the store
    directly.) *)
Definition new_referral (trigger : option widget) (referrer_name : value)
    (customer_name : string) (product_name : value) (now : string)
    : M app unit :=
  if button trigger new_referral_button then
    render (st_title "Submit a Referral");;
    referrer_names ← get_referrers_dict;
    product_names ← get_products_dict;
    (* with st.form("referral_form") *)
    let submitted := button trigger submit_referral_button in
    if submitted then
      submit_referral referrer_name customer_name product_name now
    else mret tt
  else mret tt.

(** The body of [if submitted:] in the customer form of [dashboard];
    [new_customer] below has the lines around it. *)
Definition submit_customer (customer_name : string) (net_worth : Z)
    (risk_profile : string) : M app unit :=
  if negb (truthy (strip customer_name)) then
    render (st_error "Customer Name is required.")
  else
    (* Add the new customer to the database *)
    success ← add_customer customer_name net_worth risk_profile;
    if (success : bool) then render (st_success "Customer added successfully!")
    else mret tt.

(** Lines 347 to 366: the customer form under
    [if col3.button("New Customer")].  ([get_customers.clear()] at the end
    has nothing to clear here, where the accessors read the store
    directly.) *)
Definition new_customer (trigger : option widget) (customer_name : string)
    (net_worth : Z) (risk_profile : string) : M app unit :=
  if button trigger new_customer_button then
    render (st_title "Submit a New Customer");;
    (* with st.form("customer_form") *)
    let submitted := button trigger add_customer_button in
    if submitted then submit_customer customer_name net_worth risk_profile
    else mret tt
  else mret tt.

(** ** Reading a table *)

(** What [run_read_sql] depends on: whether the file can be opened, and
    what [pd.read_sql_query] answers on an open connection.  (A statement
    that SQLite rejects leaves pandas as [pandas.errors.DatabaseError],
    which is not an [sqlite3.Error]: an [OtherError] here.) *)
Record storage : Type := Storage {
  sqlite3_connect : result nat;
  read_sql_query : string → nat → result DataFrame
}.

(** The local variables of [run_read_sql], unbound at first, what it has
    printed and the connections it has closed. *)
Record locals : Type := Locals {
  conn : option nat;
  df : option DataFrame;
  printed : list string;
  closed : list nat
}.

Definition set_conn (c : nat) : M locals unit :=
  modify (λ l, Locals (Some c) (df l) (printed l) (closed l)).

Definition set_df (d : DataFrame) : M locals unit :=
  modify (λ l, Locals (conn l) (Some d) (printed l) (closed l)).

Definition print (line : string) : M locals unit :=
  modify (λ l, Locals (conn l) (df l) (printed l ++ [line]) (closed l)).

Definition close (c : nat) : M locals unit :=
  modify (λ l, Locals (conn l) (df l) (printed l) (closed l ++ [c])).

(** Reading a local variable that was never assigned raises. *)
Definition get_conn : M locals nat :=
  λ l, match conn l with
       | Some c => (Ok c, l)
       | None => (Raise (UnboundLocalError "conn"), l)
       end.

Definition get_df : M locals DataFrame :=
  λ l, match df l with
       | Some d => (Ok d, l)
       | None => (Raise (UnboundLocalError "df"), l)
       end.

Definition run_read_sql (env : storage) (query : string) : M locals DataFrame :=
  try_finally
    (try_except
       ((* Connect to the SQLite database *)
        c ← lift (sqlite3_connect env);
        set_conn c;;
        (* Read the data into a DataFrame *)
        d ← lift (read_sql_query env query c);
        set_df d)
       is_sqlite_error
       (λ e, print ("An error occurred: " +:+ message e);;
             set_df ∅))
    ((* Close the database connection *)
     c ← get_conn;
     (* a connection object is always true *)
     close c);;
  get_df.

(** ** Vocabulary of the statements *)

(** The four columns [get_similarity_matrix] reads from the two frames. *)
Definition reads (cs ps : DataFrame) (rp : list string) (nw : list Z)
    (rl : list string) (mi : list Z) : Prop :=
  cs !! "risk_profile" = Some (ColStr rp) ∧
  cs !! "net_worth" = Some (ColInt nw) ∧
  ps !! "risk_level" = Some (ColStr rl) ∧
  ps !! "min_investment" = Some (ColInt mi).

(** The frames as the function leaves them: [c0] and [c1] are the codes of
    the first, customers-only encoder, [cc] and [cp] those of the joint one. *)
Definition customers_after (cs : DataFrame) (c0 cc : list Z) (nw : list Z)
    : DataFrame :=
  <["net_worth_normalized" := ColFloat (div_by_max nw)]>
    (<["risk_profile_encoded" := ColInt cc]>
       (<["risk_profile_encoded" := ColInt c0]> cs)).

Definition products_after (ps : DataFrame) (c1 cp : list Z) (mi : list Z)
    : DataFrame :=
  <["risk_level_encoded" := ColInt cp]>
    (<["min_investment_normalized" := ColFloat (div_by_max mi)]>
       (<["risk_level_encoded" := ColInt c1]> ps)).

(** A blank string: empty, or made of whitespace only. *)
Definition blank (s : string) : bool :=
  forallb isspace (list_ascii_of_string s).

(** The local variables of a call that has just started. *)
Definition fresh_locals : locals := Locals None None [] [].

(** Every column of a frame has [n] rows. *)
Definition has_rows (n : nat) (df : DataFrame) : Prop :=
  map_Forall (λ _ c, column_length c = n) df.

(** ** Sample tables *)

Definition make_customers (ids : list Z) (rp : list string) (nw : list Z)
    : DataFrame :=
  <["id" := ColInt ids]>
    (<["risk_profile" := ColStr rp]> (<["net_worth" := ColInt nw]> ∅)).

Definition make_products (ids : list Z) (rl : list string) (mi : list Z)
    : DataFrame :=
  <["id" := ColInt ids]>
    (<["risk_level" := ColStr rl]> (<["min_investment" := ColInt mi]> ∅)).

(** Three customers and three products of the demonstration data. *)
Definition demo_customers : DataFrame :=
  make_customers [1; 2; 3] ["High"; "Low"; "Medium"] [150000; 50000; 250000].

Definition demo_products : DataFrame :=
  make_products [1; 2; 3] ["High"; "Medium"; "Low"] [750000; 0; 200].

Definition demo : frames := Frames demo_customers demo_products.

(** The example of the specification. *)
Definition equal_profiles : frames :=
  Frames (make_customers [1] ["High"] [150000])
         (make_products [1] ["High"] [750000]).

(** A single customer without any net worth. *)
Definition penniless : frames :=
  Frames (make_customers [1] ["Low"] [0]) (make_products [1] ["Low"] [200]).

(** A product whose risk level no customer has. *)
Definition unseen_level : frames :=
  Frames (make_customers [1] ["Low"] [50000])
         (make_products [1] ["High"] [10000]).

(** Net worths and minimum investments of 1, 3 and 3. *)
Definition thirds : frames :=
  Frames (make_customers [1; 2; 3] ["Medium"; "Low"; "High"] [1; 3; 3])
         (make_products [1; 2; 3] ["Medium"; "Low"; "High"] [1; 3; 3]).

(** A customer and a product whose feature vectors are zero: no net worth
    or minimum investment, and the label that is encoded as 0. *)
Definition zero_vectors : frames :=
  Frames (make_customers [1; 2] ["High"; "Low"] [0; 50000])
         (make_products [1; 2] ["High"; "Low"] [0; 200]).

(** No product at all. *)
Definition no_products : frames :=
  Frames (make_customers [1] ["Low"] [50000]) (make_products [] [] []).

(** The store after [create_tables], with one referrer and one product. *)
Definition seed (step : result database) (d : database) : database :=
  match step with Ok d' => d' | Raise _ => d end.

Definition demo_db : database :=
  let d := create_tables ∅ in
  let d := seed (execute_insert "referrers" ["name"; "points"; "badges"]
                   [VText "John Smith"; VInt 1500; VText "Bronze, Silver"] d) d in
  seed (execute_insert "products"
          ["product_name"; "agreement_terms"; "referral_reward"; "risk_level";
           "min_investment"]
          [VText "Credit Card"; VText "Referral bonus upon account activation";
           VInt 200; VText "Medium"; VInt 0] d) d.

Definition unopenable : storage :=
  Storage (Raise (SqliteError "unable to open database file")) (λ _ _, Ok ∅).

(** ** Seeding the store *)

(** [INSERT INTO name (cols) VALUES (...), (...), ...]: one statement that
    adds its rows in order. *)
Definition execute_insert_many (name : string) (cols : list string)
    (vals : list (list value)) (d : database) : result database :=
  foldl (λ r row, d' ← r; execute_insert name cols row d') (Ok d) vals.

Definition synthetic_products : list (list value) :=
  [ [VText "Investment Package"; VText "10% commission on successful referrals";
     VInt 300; VText "High"; VInt 750000];
    [VText "Savings Account"; VText "5% cashback for referrers on first purchase";
     VInt 150; VText "High"; VInt 10000];
    [VText "Credit Card"; VText "Referral bonus upon account activation";
     VInt 200; VText "Medium"; VInt 0];
    [VText "Insurance Plan"; VText "Flat $50 reward for every successful referral";
     VInt 50; VText "Low"; VInt 200];
    [VText "Personal Loan";
     VText "Tiered reward system based on customer investment";
     VInt 400; VText "Low"; VInt 500] ].

Definition synthetic_referrals : list (list value) :=
  [ [VText "John Smith"; VText "2024-01-15"; VText "Alex Brown";
     VText "Investment Package"; VText "Completed"; VInt 300];
    [VText "Jane Johnson"; VText "2024-02-05"; VText "Taylor Davis";
     VText "Savings Account"; VText "Pending"; VInt 0];
    [VText "Chris Williams"; VText "2024-03-20"; VText "Jordan Garcia";
     VText "Credit Card"; VText "Completed"; VInt 200];
    [VText "Alex Brown"; VText "2024-04-10"; VText "Sam Miller";
     VText "Insurance Plan"; VText "Failed"; VInt 0];
    [VText "Taylor Davis"; VText "2024-05-22"; VText "John Smith";
     VText "Personal Loan"; VText "Completed"; VInt 400];
    [VText "Jordan Garcia"; VText "2024-06-14"; VText "Chris Williams";
     VText "Investment Package"; VText "Pending"; VInt 0];
    [VText "Sam Miller"; VText "2024-07-09"; VText "Jane Johnson";
     VText "Savings Account"; VText "Completed"; VInt 150];
    [VText "Morgan Brown"; VText "2024-08-03"; VText "Alex Brown";
     VText "Credit Card"; VText "Failed"; VInt 0];
    [VText "Jordan Smith"; VText "2024-09-12"; VText "Chris Garcia";
     VText "Insurance Plan"; VText "Completed"; VInt 50];
    [VText "Sam Williams"; VText "2024-10-01"; VText "Taylor Jones";
     VText "Personal Loan"; VText "Pending"; VInt 0] ].

Definition synthetic_customers : list (list value) :=
  [ [VText "Alex Brown"; VInt 150000; VText "High";
     VText "Investment Package, Credit Card"];
    [VText "Taylor Davis"; VInt 50000; VText "Low"; VText "Savings Account"];
    [VText "Jordan Garcia"; VInt 250000; VText "Medium";
     VText "Personal Loan, Insurance Plan"];
    [VText "Sam Miller"; VInt 80000; VText "Low";
     VText "Savings Account, Insurance Plan"];
    [VText "Chris Williams"; VInt 300000; VText "High";
     VText "Investment Package, Personal Loan"];
    [VText "John Smith"; VInt 120000; VText "Medium";
     VText "Credit Card, Savings Account"];
    [VText "Morgan Brown"; VInt 60000; VText "Low"; VText "Insurance Plan"];
    [VText "Jane Johnson"; VInt 200000; VText "High";
     VText "Investment Package, Credit Card"];
    [VText "Chris Garcia"; VInt 90000; VText "Medium"; VText "Personal Loan"];
    [VText "Taylor Jones"; VInt 75000; VText "Low"; VText "Savings Account"] ].

Definition synthetic_referrers : list (list value) :=
  [ [VText "John Smith"; VInt 1500; VText "Bronze, Silver"];
    [VText "Jane Johnson"; VInt 800; VText "Gold, Bronze"];
    [VText "Chris Williams"; VInt 2000; VText "Platinum, Diamond"];
    [VText "Alex Brown"; VInt 1200; VText "Bronze"];
    [VText "Taylor Davis"; VInt 500; VText "Silver, Gold"];
    [VText "Jordan Garcia"; VInt 1300; VText "Gold, Platinum"];
    [VText "Sam Miller"; VInt 600; VText "Bronze"];
    [VText "Morgan Brown"; VInt 1700; VText "Platinum, Diamond, Gold"];
    [VText "Jordan Smith"; VInt 900; VText "Silver, Bronze"];
    [VText "Taylor Jones"; VInt 1000; VText "Gold"] ].

(** The body of [insert_synthetic_data]: four statements on one connection,
    committed together at the end. *)
Definition insert_synthetic_data : M app unit :=
  conn ← connect;
  conn ← lift (execute_insert_many "products"
                 ["product_name"; "agreement_terms"; "referral_reward";
                  "risk_level"; "min_investment"]
                 synthetic_products conn);
  conn ← lift (execute_insert_many "referrals"
                 ["referrer_name"; "referral_date"; "customer_name";
                  "product_referred"; "referral_status"; "referrer_points"]
                 synthetic_referrals conn);
  conn ← lift (execute_insert_many "customers"
                 ["customer_name"; "net_worth"; "risk_profile";
                  "purchase_history"]
                 synthetic_customers conn);
  conn ← lift (execute_insert_many "referrers"
                 ["name"; "points"; "badges"]
                 synthetic_referrers conn);
  commit conn.

(** [insert_synthetic_data] with its decorator, [@st.cache_resource] (line
    241).  The function has no argument, so there is one entry to keep:
    [seeded] tells whether a call has returned since the caches were last
    cleared; from then on a call returns at once, without running the
    body. *)
Definition insert_synthetic_data_memoised : M (bool * app) unit :=
  λ '(seeded, a),
    if (seeded : bool) then (Ok tt, (seeded, a))
    else match insert_synthetic_data a with
         | (Ok _, a') => (Ok tt, (true, a'))
         | (Raise e, a') => (Raise e, (false, a'))
         end.

(** ** The memoised accessors *)

(** [st.cache_resource] keeps what a function has returned, per function
    and argument, and hands the same object out again until the entry is
    cleared; a call that raises stores nothing.  The accessors below are the
    ones without a frame among their arguments; the frames they keep hold
    text and integer columns. *)
Module Cached.

Abbreviation dict := (list (value * value)).

Record session : Type := Session {
  frames_cache : gmap string DataFrame;
  dicts_cache : gmap string dict;
  stdout : list string
}.

Definition cache_frame (key : string) (body : M session DataFrame)
    : M session DataFrame :=
  λ s, match frames_cache s !! key with
       | Some df => (Ok df, s)
       | None =>
           match body s with
           | (Ok df, s') =>
               (Ok df, Session (<[key := df]> (frames_cache s'))
                               (dicts_cache s') (stdout s'))
           | (Raise e, s') => (Raise e, s')
           end
       end.

Definition cache_dict (key : string) (body : M session dict)
    : M session dict :=
  λ s, match dicts_cache s !! key with
       | Some d => (Ok d, s)
       | None =>
           match body s with
           | (Ok d, s') =>
               (Ok d, Session (frames_cache s')
                              (<[key := d]> (dicts_cache s')) (stdout s'))
           | (Raise e, s') => (Raise e, s')
           end
       end.

(** A call of [run_read_sql]: its local variables are its own, what it
    prints goes to the output of the session. *)
Definition read_sql (env : storage) (query : string) : M session DataFrame :=
  λ s, let run := run_read_sql env query fresh_locals in
       (run.1, Session (frames_cache s) (dicts_cache s)
                       (stdout s ++ printed run.2)).

Definition get_customers (env : storage) : M session DataFrame :=
  cache_frame "get_customers" (read_sql env "SELECT * FROM customers").

Definition get_products (env : storage) : M session DataFrame :=
  cache_frame "get_products" (read_sql env "SELECT * FROM products").

Definition get_referrals (env : storage) : M session DataFrame :=
  cache_frame "get_referrals" (read_sql env "SELECT * FROM referrals").

Definition get_referrers (env : storage) : M session DataFrame :=
  cache_frame "get_referrers" (read_sql env "SELECT * FROM referrers").

Definition column_values (c : column) : result (list value) :=
  match c with
  | ColStr l => Ok (VText <$> l)
  | ColInt l => Ok (VInt <$> l)
  | ColFloat _ => Raise (TypeError "float column")
  end.

(** [df[[a, b]].set_index(key)[val].to_dict()], where [key] and [val] are
    [a] and [b] in some order: both columns have to exist, and a later row
    replaces an earlier one with the same key. *)
Definition frame_to_dict (df : DataFrame) (key val : string) : result dict :=
  match df !! key, df !! val with
  | Some k, Some v =>
      ks ← column_values k;
      vs ← column_values v;
      Ok (foldl (λ d kv, kv :: filter (λ x, x.1 ≠ kv.1) d) [] (zip ks vs))
  | _, _ => Raise (KeyError "not in index")
  end.

Definition get_referrers_dict (env : storage) : M session dict :=
  cache_dict "get_referrers_dict"
    (referrers ← get_referrers env;
     lift (frame_to_dict referrers "name" "user_id")).

Definition get_products_dict (env : storage) : M session dict :=
  cache_dict "get_products_dict"
    (products ← get_products env;
     lift (frame_to_dict products "product_name" "id")).

Definition get_customers_dict (reversed : bool) (env : storage)
    : M session dict :=
  cache_dict (if reversed then "get_customers_dict(reversed=True)"
              else "get_customers_dict(reversed=False)")
    (customers ← get_customers env;
     if reversed then lift (frame_to_dict customers "customer_name" "id")
     else lift (frame_to_dict customers "id" "customer_name")).

Definition get_customers_risk_profile (env : storage) : M session dict :=
  cache_dict "get_customers_risk_profile"
    (customers ← get_customers env;
     lift (frame_to_dict customers "id" "risk_profile")).

(** The button "Refresh Data" of [dashboard]. *)
Definition refresh_data : M session unit :=
  modify (λ s, Session (delete "get_referrers"
                          (delete "get_referrals"
                             (delete "get_products"
                                (delete "get_customers" (frames_cache s)))))
                       (dicts_cache s) (stdout s)).

(** The button "Clear Cache": [st.cache_resource.clear()]. *)
Definition clear_cache : M session unit :=
  modify (λ s, Session ∅ ∅ (stdout s)).

(** A session in which nothing has been called yet. *)
Definition fresh : session := Session ∅ ∅ [].

End Cached.

(** ** Sample frames with names *)

Definition named_customers : DataFrame :=
  <["customer_name" := ColStr ["Alex Brown"; "Taylor Davis"; "Jordan Garcia"]]>
    demo_customers.

(** ** Formatting a frame for display *)

(** [sub in s] *)
Fixpoint contains (sub s : string) : bool :=
  String.prefix sub s
  || match s with
     | EmptyString => false
     | String _ s' => contains sub s'
     end.

(** [s.replace(a, b)] for single characters. *)
Fixpoint replace_char (a b : ascii) (s : string) : string :=
  match s with
  | EmptyString => EmptyString
  | String c s' =>
      String (if Ascii.eqb c a then b else c) (replace_char a b s')
  end.

Definition is_lower (c : ascii) : bool :=
  ((97 <=? nat_of_ascii c) && (nat_of_ascii c <=? 122))%nat.

Definition is_upper (c : ascii) : bool :=
  ((65 <=? nat_of_ascii c) && (nat_of_ascii c <=? 90))%nat.

Definition to_upper (c : ascii) : ascii :=
  if is_lower c then ascii_of_nat (nat_of_ascii c - 32) else c.

Definition to_lower (c : ascii) : ascii :=
  if is_upper c then ascii_of_nat (nat_of_ascii c + 32) else c.

(** [str.title] on ASCII text: a letter that follows a letter is put in
    lower case, any other letter in upper case. *)
Fixpoint title_from (previous_is_cased : bool) (s : string) : string :=
  match s with
  | EmptyString => EmptyString
  | String c s' =>
      String (if previous_is_cased then to_lower c else to_upper c)
             (title_from (is_lower c || is_upper c) s')
  end.

Definition title (s : string) : string := title_from false s.

(** The display name of a column. *)
Definition beautify (col : string) : string :=
  title (replace_char "_" " " col).

Definition is_ascii (s : string) : bool :=
  forallb (λ c, (nat_of_ascii c <? 128)%nat) (list_ascii_of_string s).

Inductive column_config : Type :=
| NumberColumn (label : string)
| DatetimeColumn (label : string) (format : string) (min_width : Z)
| TextColumn (label : string).

(** The frames of the program hold numbers and text; none holds a
    [datetime64] column, for which the source has a third kind of
    configuration. *)
Definition config_for (label : string) (c : column) : column_config :=
  match c with
  | ColInt _ | ColFloat _ => NumberColumn label
  | ColStr _ => TextColumn label
  end.

(** [column_configs] is a dictionary keyed by display name.  When two
    columns have the same display name, [df_display[col]] is a frame and
    not a column: it passes neither dtype test, and the name gets a text
    configuration. *)
Definition column_configs (renamed : list (string * column))
    : gmap string column_config :=
  list_to_map
    ((λ nc, (nc.1,
             match filter (λ other, other.1 = nc.1) renamed with
             | [_] => config_for nc.1 nc.2
             | _ => TextColumn nc.1
             end)) <$> renamed).

(** The columns left after the [if hide_index:] block: [id] is dropped,
    then every column whose name contains [id]. *)
Definition hide_ids (df : DataFrame) : DataFrame :=
  let df_display :=
    if decide (is_Some (df !! "id")) then delete "id" df else df in
  foldl (λ shown col, if contains "id" col then delete col shown else shown)
        df_display (map_to_list df_display).*1.

(** What [display_beautified_dataframe] hands to [st.dataframe]: the
    columns under their display names, their configurations, and
    [hide_index].  (The order of the columns is that of the map.) *)
Definition display_beautified_dataframe (df : DataFrame) (no_index : bool)
    : list (string * column) * gmap string column_config * bool :=
  let hide_index := no_index in
  let df_display := if hide_index then hide_ids df else df in
  let renamed := (λ nc, (beautify nc.1, nc.2)) <$> map_to_list df_display in
  (renamed, column_configs renamed, hide_index).

(** * Properties *)

(** ** The label encoder *)

Lemma elem_of_insert_unique (s x : string) (l : list string) :
  x ∈ insert_unique s l ↔ x = s ∨ x ∈ l.
Proof.
  induction l as [|a l IH]; simpl.
  - rewrite list_elem_of_singleton, elem_of_nil. tauto.
  - destruct (String.compare s a) eqn:E.
    + apply String.compare_eq_iff in E as ->.
      rewrite elem_of_cons. tauto.
    + rewrite elem_of_cons. tauto.
    + rewrite !elem_of_cons, IH. tauto.
Qed.

Lemma elem_of_np_unique (x : string) (y : list string) :
  x ∈ np_unique y ↔ x ∈ y.
Proof.
  induction y as [|a y IH]; simpl.
  - reflexivity.
  - rewrite elem_of_insert_unique, IH, elem_of_cons. tauto.
Qed.

Lemma index_of_is_Some (s : string) (l : list string) :
  is_Some (index_of s l) ↔ s ∈ l.
Proof.
  induction l as [|a l IH]; simpl.
  - split; [intros [? [=]] | inversion 1].
  - destruct (String.eqb_spec s a) as [->|Hne].
    + split; [intros _; left | eauto].
    + rewrite fmap_is_Some, IH, elem_of_cons. tauto.
Qed.

Lemma transform_total (le : LabelEncoder) (y : list string) :
  Forall (λ s, s ∈ classes_ le) y → ∃ codes, transform le y = Ok codes.
Proof.
  induction 1 as [|s y Hs _ [codes IH]]; simpl.
  - eauto.
  - apply index_of_is_Some in Hs as [c ->]. rewrite IH. simpl. eauto.
Qed.

Lemma transform_seen (le : LabelEncoder) (y : list string) (codes : list Z) :
  transform le y = Ok codes → Forall (λ s, s ∈ classes_ le) y.
Proof.
  revert codes. induction y as [|s y IH]; simpl; intros codes H.
  - constructor.
  - destruct (index_of s (classes_ le)) eqn:E; [|discriminate].
    destruct (transform le y) eqn:E'; [|discriminate].
    constructor; [apply index_of_is_Some; eauto | eauto].
Qed.

Lemma transform_lookup (le : LabelEncoder) (y : list string) (codes : list Z)
    (i : nat) (s : string) :
  transform le y = Ok codes → y !! i = Some s →
  ∃ c, index_of s (classes_ le) = Some c ∧ codes !! i = Some c.
Proof.
  revert codes i. induction y as [|x y IH]; simpl; intros codes i H Hi.
  - discriminate.
  - destruct (index_of x (classes_ le)) as [c|] eqn:E; [|discriminate].
    destruct (transform le y) as [cs|] eqn:E'; [|discriminate].
    simpl in H. injection H as <-.
    destruct i as [|i]; simpl in *.
    + injection Hi as <-. eauto.
    + eauto.
Qed.

Lemma transform_length (le : LabelEncoder) (y : list string) (codes : list Z) :
  transform le y = Ok codes → length codes = length y.
Proof.
  revert codes. induction y as [|x y IH]; simpl; intros codes H.
  - by injection H as <-.
  - destruct (index_of x (classes_ le)) as [c|]; [|discriminate].
    destruct (transform le y) as [cs|]; [|discriminate].
    simpl in H. injection H as <-. simpl. f_equal. eauto.
Qed.

(** Fitting on a list that covers [y] lets [transform] succeed on [y]. *)
Lemma transform_fit_total (fitted y : list string) :
  y ⊆ fitted → ∃ codes, transform (fit fitted) y = Ok codes.
Proof.
  intros Hsub. apply transform_total, Forall_forall.
  intros s Hs. simpl. apply elem_of_np_unique. auto.
Qed.

(** ** Running [get_similarity_matrix] *)

Lemma bind_run {S A B} (m : M S A) (f : A → M S B) (s : S) :
  (m ≫= f) s = match m s with
               | (Ok a, s') => f a s'
               | (Raise e, s') => (Raise e, s')
               end.
Proof. reflexivity. Qed.

Lemma getitem_str_run (f : frame) (c : string) (s : frames) (l : list string) :
  the_frame f s !! c = Some (ColStr l) → getitem_str f c s = (Ok l, s).
Proof. intros H. unfold getitem_str, getitem. rewrite bind_run, H. reflexivity. Qed.

Lemma getitem_int_run (f : frame) (c : string) (s : frames) (l : list Z) :
  the_frame f s !! c = Some (ColInt l) → getitem_int f c s = (Ok l, s).
Proof. intros H. unfold getitem_int, getitem. rewrite bind_run, H. reflexivity. Qed.

Lemma getitem_float_run (f : frame) (c : string) (s : frames) (l : list float64) :
  the_frame f s !! c = Some (ColFloat l) → getitem_float f c s = (Ok l, s).
Proof. intros H. unfold getitem_float, getitem. rewrite bind_run, H. reflexivity. Qed.

Lemma subseteq_app_l (y z : list string) : y ⊆ y ++ z.
Proof. intros s Hs. apply elem_of_app. by left. Qed.

Lemma subseteq_app_r (y z : list string) : z ⊆ y ++ z.
Proof. intros s Hs. apply elem_of_app. by right. Qed.

Lemma lift_run {S A} (r : result A) (s : S) : lift r s = (r, s).
Proof. reflexivity. Qed.

Lemma setitem_run (f : frame) (c : string) (v : column) (s : frames) :
  setitem f c v s =
    (Ok tt, match f with
            | Customers => Frames (<[c := v]> (customers s)) (products s)
            | Products => Frames (customers s) (<[c := v]> (products s))
            end).
Proof. reflexivity. Qed.

Ltac run_lookup := cbn [the_frame customers products]; simplify_map_eq; eauto.

Ltac run_step :=
  rewrite bind_run;
  first
    [ erewrite getitem_str_run by run_lookup
    | erewrite getitem_int_run by run_lookup
    | erewrite getitem_float_run by run_lookup
    | rewrite lift_run
    | rewrite setitem_run ];
  cbv beta iota; cbn [customers products].

Lemma get_similarity_matrix_run (cs ps : DataFrame) rp nw rl mi c0 c1 cc cp :
  reads cs ps rp nw rl mi →
  transform (fit rp) rp = Ok c0 →
  transform (fit rp) rl = Ok c1 →
  transform (fit (rp ++ rl)) rp = Ok cc →
  transform (fit (rp ++ rl)) rl = Ok cp →
  get_similarity_matrix (Frames cs ps) =
    (cosine_similarity (values2 (div_by_max nw) cc) (values2 (div_by_max mi) cp),
     Frames (customers_after cs c0 cc nw) (products_after ps c1 cp mi)).
Proof.
  intros (Hrp & Hnw & Hrl & Hmi) H0 H1 Hc Hp.
  unfold get_similarity_matrix.
  run_step. run_step. unfold fit_transform. rewrite H0. cbn [mbind result_bind].
  cbv beta iota.
  run_step. run_step. run_step. rewrite H1.
  do 5 run_step.
  run_step. run_step. rewrite Hc.
  run_step. run_step. run_step. rewrite Hp.
  do 7 run_step.
  rewrite lift_run. reflexivity.
Qed.

Lemma getitem_str_cases (f : frame) (c : string) (s : frames) :
  (∃ l, the_frame f s !! c = Some (ColStr l) ∧ getitem_str f c s = (Ok l, s)) ∨
  (∃ e, getitem_str f c s = (Raise e, s)).
Proof.
  unfold getitem_str, getitem. rewrite bind_run.
  destruct (the_frame f s !! c) as [[]|]; eauto.
Qed.

Lemma getitem_int_cases (f : frame) (c : string) (s : frames) :
  (∃ l, the_frame f s !! c = Some (ColInt l) ∧ getitem_int f c s = (Ok l, s)) ∨
  (∃ e, getitem_int f c s = (Raise e, s)).
Proof.
  unfold getitem_int, getitem. rewrite bind_run.
  destruct (the_frame f s !! c) as [[]|]; eauto.
Qed.

Ltac inv_getitem H l Hl :=
  rewrite bind_run in H;
  match type of H with
  | context [getitem_str ?f ?c ?s] =>
      let Hrun := fresh "Hrun" in
      let e := fresh "e" in
      destruct (getitem_str_cases f c s) as [(l & Hl & Hrun) | (e & Hrun)];
      rewrite Hrun in H; [|discriminate H]; clear Hrun
  | context [getitem_int ?f ?c ?s] =>
      let Hrun := fresh "Hrun" in
      let e := fresh "e" in
      destruct (getitem_int_cases f c s) as [(l & Hl & Hrun) | (e & Hrun)];
      rewrite Hrun in H; [|discriminate H]; clear Hrun
  end;
  cbv beta iota in H; cbn [the_frame customers products] in Hl.

Ltac inv_other H :=
  rewrite bind_run in H;
  first [ rewrite lift_run in H | rewrite setitem_run in H ];
  cbv beta iota in H; cbn [customers products] in H.

(** A run that returns has read the four columns, and both encoders have
    accepted every label they were given. *)
Lemma get_similarity_matrix_Ok_inv (cs ps : DataFrame) (K : matrix) (s' : frames) :
  get_similarity_matrix (Frames cs ps) = (Ok K, s') →
  ∃ rp nw rl mi c0 c1 cc cp,
    reads cs ps rp nw rl mi ∧
    transform (fit rp) rp = Ok c0 ∧
    transform (fit rp) rl = Ok c1 ∧
    transform (fit (rp ++ rl)) rp = Ok cc ∧
    transform (fit (rp ++ rl)) rl = Ok cp.
Proof.
  intros H. unfold get_similarity_matrix in H.
  inv_getitem H rp Hrp.
  destruct (transform_fit_total rp rp) as [c0 H0]; [done|].
  inv_other H. unfold fit_transform in H. rewrite H0 in H.
  cbn [mbind result_bind] in H. cbv beta iota in H.
  inv_other H.
  inv_getitem H rl Hrl.
  inv_other H. destruct (transform (fit rp) rl) as [c1|] eqn:H1; [|discriminate H].
  inv_other H.
  inv_getitem H mi Hmi.
  inv_other H.
  inv_getitem H rp' Hrp'. inv_getitem H rl' Hrl'. inv_getitem H rp'' Hrp''.
  destruct (transform_fit_total (rp ++ rl) rp) as [cc Hc];
    [apply subseteq_app_l|].
  destruct (transform_fit_total (rp ++ rl) rl) as [cp Hp];
    [apply subseteq_app_r|].
  simplify_map_eq.
  inv_other H. rewrite Hc in H.
  inv_other H.
  inv_getitem H rl'' Hrl''. simplify_map_eq.
  inv_other H. rewrite Hp in H.
  inv_other H.
  inv_getitem H nw Hnw. simplify_map_eq.
  exists rp, nw, rl, mi, c0, c1, cc, cp. unfold reads. auto 10.
Qed.

(** A run that returns leaves the two frames as [customers_after] and
    [products_after] describe. *)
Lemma get_similarity_matrix_Ok_state (cs ps : DataFrame) (K : matrix) (s' : frames) :
  get_similarity_matrix (Frames cs ps) = (Ok K, s') →
  ∃ rp nw rl mi c0 c1 cc cp,
    reads cs ps rp nw rl mi ∧
    transform (fit (rp ++ rl)) rp = Ok cc ∧
    transform (fit (rp ++ rl)) rl = Ok cp ∧
    cosine_similarity (values2 (div_by_max nw) cc) (values2 (div_by_max mi) cp) = Ok K ∧
    s' = Frames (customers_after cs c0 cc nw) (products_after ps c1 cp mi).
Proof.
  intros H.
  destruct (get_similarity_matrix_Ok_inv _ _ _ _ H)
    as (rp & nw & rl & mi & c0 & c1 & cc & cp & Hr & H0 & H1 & Hc & Hp).
  rewrite (get_similarity_matrix_run _ _ _ _ _ _ _ _ _ _ Hr H0 H1 Hc Hp) in H.
  injection H as HK Hs.
  exists rp, nw, rl, mi, c0, c1, cc, cp. auto 10.
Qed.

(** A run is the pair of its outcome and of the state it reaches. *)
Lemma run_returns {S A} (m : M S A) (s : S) (a : A) :
  (m s).1 = Ok a → m s = (Ok a, (m s).2).
Proof. destruct (m s) as [r s']. simpl. by intros ->. Qed.

(** ** Joint label encoding *)

(** The first encoder, of lines 63 to 65, is fitted on the customers alone:
    a product whose risk level no customer has makes the call raise before
    the joint encoder is reached. *)
Example first_encoder_rejects_unseen_level :
  (get_similarity_matrix unseen_level).1
    = Raise (ValueError "y contains previously unseen labels").
Proof. reflexivity. Qed.

Example demo_codes :
  customers (get_similarity_matrix demo).2 !! "risk_profile_encoded"
    = Some (ColInt [0; 1; 2]) ∧
  products (get_similarity_matrix demo).2 !! "risk_level_encoded"
    = Some (ColInt [0; 2; 1]).
Proof. split; reflexivity. Qed.

(** C2. When [get_similarity_matrix] returns, a customer and a product
    whose risk labels are the same string have been given the same code,
    namely the position of that label among the labels of both columns taken
    together. *)
Theorem C2_joint_label_encoding (cs ps : DataFrame) (K : matrix) (s' : frames)
    (rp rl : list string) (i j : nat) (label : string) :
  get_similarity_matrix (Frames cs ps) = (Ok K, s') →
  cs !! "risk_profile" = Some (ColStr rp) →
  ps !! "risk_level" = Some (ColStr rl) →
  rp !! i = Some label →
  rl !! j = Some label →
  ∃ (rpe rle : list Z) (code : Z),
    customers s' !! "risk_profile_encoded" = Some (ColInt rpe) ∧
    products s' !! "risk_level_encoded" = Some (ColInt rle) ∧
    rpe !! i = Some code ∧
    rle !! j = Some code ∧
    index_of label (classes_ (fit (rp ++ rl))) = Some code.
Proof.
  intros H Hrp Hrl Hi Hj.
  destruct (get_similarity_matrix_Ok_state _ _ _ _ H)
    as (rp' & nw & rl' & mi & c0 & c1 & cc & cp & Hr & Hc & Hp & _ & ->).
  destruct Hr as (Hrp' & _ & Hrl' & _).
  rewrite Hrp in Hrp'. injection Hrp' as <-.
  rewrite Hrl in Hrl'. injection Hrl' as <-.
  destruct (transform_lookup _ _ _ _ _ Hc Hi) as (c & Hidx & Hci).
  destruct (transform_lookup _ _ _ _ _ Hp Hj) as (c' & Hidx' & Hcj).
  rewrite Hidx in Hidx'. injection Hidx' as <-.
  exists cc, cp, c. cbn [customers products].
  unfold customers_after, products_after.
  repeat split; try assumption; by simplify_map_eq.
Qed.

Lemma C2_joint_label_encoding_witness :
  ∃ (rpe rle : list Z) (code : Z),
    customers (get_similarity_matrix demo).2 !! "risk_profile_encoded"
      = Some (ColInt rpe) ∧
    products (get_similarity_matrix demo).2 !! "risk_level_encoded"
      = Some (ColInt rle) ∧
    rpe !! 1%nat = Some code ∧
    rle !! 2%nat = Some code ∧
    index_of "Low" (classes_ (fit (["High"; "Low"; "Medium"]
                                     ++ ["High"; "Medium"; "Low"]))) = Some code.
Proof.
  eapply (C2_joint_label_encoding demo_customers demo_products _ _
            ["High"; "Low"; "Medium"] ["High"; "Medium"; "Low"] 1 2 "Low");
    [apply run_returns; reflexivity | reflexivity ..].
Defined.

(** ** Mutation of the caller's frames *)

(** When the body of [get_similarity_matrix] returns, the customers frame
    it ran on holds the columns [risk_profile_encoded] and
    [net_worth_normalized] and the products frame the columns
    [risk_level_encoded] and [min_investment_normalized]; the column names
    of each frame are the ones it had plus these two, and every other column
    is as it was. *)
Lemma body_adds_columns (cs ps : DataFrame) (K : matrix) (s' : frames) :
  get_similarity_matrix (Frames cs ps) = (Ok K, s') →
  dom (customers s')
    = {["risk_profile_encoded"; "net_worth_normalized"]} ∪ dom cs ∧
  dom (products s')
    = {["risk_level_encoded"; "min_investment_normalized"]} ∪ dom ps ∧
  (∀ c, c ≠ "risk_profile_encoded" → c ≠ "net_worth_normalized" →
        customers s' !! c = cs !! c) ∧
  (∀ c, c ≠ "risk_level_encoded" → c ≠ "min_investment_normalized" →
        products s' !! c = ps !! c).
Proof.
  intros H.
  destruct (get_similarity_matrix_Ok_state _ _ _ _ H)
    as (rp & nw & rl & mi & c0 & c1 & cc & cp & _ & _ & _ & _ & ->).
  cbn [customers products]. unfold customers_after, products_after.
  repeat split.
  - rewrite !dom_insert_L. apply set_eq. intros c.
    rewrite !elem_of_union, !elem_of_singleton. tauto.
  - rewrite !dom_insert_L. apply set_eq. intros c.
    rewrite !elem_of_union, !elem_of_singleton. tauto.
  - intros c ? ?. by simplify_map_eq.
  - intros c ? ?. by simplify_map_eq.
Qed.

Lemma cached_latest (k : Memoised.key) (K : matrix) (c : Memoised.cache) :
  Memoised.cached k ((k, K) :: c) = Some K.
Proof. unfold Memoised.cached. cbn [list_find]. by rewrite decide_True. Qed.

Lemma kept_after_a_miss (c : Memoised.cache) (s : frames) (K : matrix) :
  Memoised.cached (customers s, products s) c = None →
  (Memoised.get_similarity_matrix (c, s)).1 = Ok K →
  (Memoised.get_similarity_matrix (c, s)).2.1
    = ((customers s, products s), K) :: c.
Proof.
  unfold Memoised.get_similarity_matrix. intros ->.
  destruct (get_similarity_matrix s) as [[K0|e] s0]; [|discriminate].
  by intros [= ->].
Qed.

(** C10, as the code has it.  When the memoised [get_similarity_matrix]
    returns, either no matrix was kept for frames of these contents: then
    the body has run, the matrix is now kept, the customers frame passed has
    gained [risk_profile_encoded] and [net_worth_normalized], the products
    frame [risk_level_encoded] and [min_investment_normalized], and every
    other column is as it was.  Or a matrix was kept: then it is the one
    returned, and the frames passed are exactly as they were. *)
Theorem C10_frames_mutated_on_a_miss (c : Memoised.cache)
    (cs ps : DataFrame) (K : matrix) :
  (Memoised.get_similarity_matrix (c, Frames cs ps)).1 = Ok K →
  let after := (Memoised.get_similarity_matrix (c, Frames cs ps)).2 in
  (Memoised.cached (cs, ps) c = None ∧
   after.1 = ((cs, ps), K) :: c ∧
   dom (customers after.2)
     = {["risk_profile_encoded"; "net_worth_normalized"]} ∪ dom cs ∧
   dom (products after.2)
     = {["risk_level_encoded"; "min_investment_normalized"]} ∪ dom ps ∧
   (∀ col, col ≠ "risk_profile_encoded" → col ≠ "net_worth_normalized" →
           customers after.2 !! col = cs !! col) ∧
   (∀ col, col ≠ "risk_level_encoded" → col ≠ "min_investment_normalized" →
           products after.2 !! col = ps !! col))
  ∨ (Memoised.cached (cs, ps) c = Some K ∧ after = (c, Frames cs ps)).
Proof.
  unfold Memoised.get_similarity_matrix. cbn [customers products].
  destruct (Memoised.cached (cs, ps) c) as [K'|].
  - intros [= ->]. right. done.
  - destruct (get_similarity_matrix (Frames cs ps)) as [[K0|e] s0] eqn:E;
      [|discriminate].
    intros [= ->]. left. cbn. split; [done|]. split; [done|].
    exact (body_adds_columns _ _ _ _ E).
Qed.

Lemma C10_frames_mutated_on_a_miss_witness :
  ∃ K : matrix,
    (Memoised.get_similarity_matrix ([], demo)).1 = Ok K ∧
    let after := (Memoised.get_similarity_matrix ([], demo)).2 in
    (Memoised.cached (demo_customers, demo_products) [] = None ∧
     after.1 = ((demo_customers, demo_products), K) :: [] ∧
     dom (customers after.2)
       = {["risk_profile_encoded"; "net_worth_normalized"]}
           ∪ dom demo_customers ∧
     dom (products after.2)
       = {["risk_level_encoded"; "min_investment_normalized"]}
           ∪ dom demo_products ∧
     (∀ col, col ≠ "risk_profile_encoded" → col ≠ "net_worth_normalized" →
             customers after.2 !! col = demo_customers !! col) ∧
     (∀ col, col ≠ "risk_level_encoded" →
             col ≠ "min_investment_normalized" →
             products after.2 !! col = demo_products !! col))
    ∨ (Memoised.cached (demo_customers, demo_products) [] = Some K ∧
       after = ([], Frames demo_customers demo_products)).
Proof.
  eexists. split; [reflexivity|].
  apply (C10_frames_mutated_on_a_miss [] demo_customers demo_products).
  reflexivity.
Defined.

(** C10 as stated fails on a hit.  A first call on the frames of [demo]
    runs the body and keeps the matrix; a later call on frames of the same
    contents, as "Refresh Data" makes the accessors read them again, returns
    that matrix and leaves the frames without any of the four columns. *)
Lemma C10_counterexample :
  ∃ K : matrix,
    (Memoised.get_similarity_matrix ([], demo)).1 = Ok K ∧
    let kept := (Memoised.get_similarity_matrix ([], demo)).2.1 in
    Memoised.get_similarity_matrix (kept, demo) = (Ok K, (kept, demo)) ∧
    customers demo !! "risk_profile_encoded" = None ∧
    customers demo !! "net_worth_normalized" = None ∧
    products demo !! "risk_level_encoded" = None ∧
    products demo !! "min_investment_normalized" = None.
Proof.
  eexists. split; [reflexivity|]. cbv zeta.
  split; [|repeat split; reflexivity].
  erewrite kept_after_a_miss; [|reflexivity|reflexivity].
  unfold Memoised.get_similarity_matrix.
  by rewrite cached_latest.
Qed.

(** ** Normalisation *)

Lemma foldl_max_spec (l : list Z) (x : Z) :
  (foldl Z.max x l = x ∨ foldl Z.max x l ∈ l) ∧
  x ≤ foldl Z.max x l ∧ Forall (λ y, y ≤ foldl Z.max x l) l.
Proof.
  revert x. induction l as [|a l IH]; intros x; simpl.
  - split; [by left | split; [lia | constructor]].
  - destruct (IH (Z.max x a)) as ([Heq | Hin] & Hle & Hall).
    + repeat split.
      * destruct (Z.max_spec x a) as [[_ Hm] | [_ Hm]].
        -- right. rewrite Heq, Hm. left.
        -- left. by rewrite Heq, Hm.
      * lia.
      * constructor; [lia | done].
    + repeat split; [right; by right | lia | constructor; [lia | done]].
Qed.

(** [series_max] is an element of the column and bounds every element. *)
Lemma series_max_spec (l : list Z) (m : Z) :
  series_max l = Some m ↔ m ∈ l ∧ Forall (λ y, y ≤ m) l.
Proof.
  destruct l as [|x l]; simpl.
  - split; [discriminate | intros [H _]; inversion H].
  - destruct (foldl_max_spec l x) as (Hin & Hle & Hall). split.
    + intros [= <-]. split; [|by constructor].
      destruct Hin as [-> | Hin]; [left | by right].
    + intros [Hm Hb]. f_equal.
      assert (m ≤ foldl Z.max x l).
      { apply list_elem_of_In in Hm. destruct Hm as [<- | Hm]; [done|].
        rewrite Forall_forall in Hall. apply Hall. by apply list_elem_of_In. }
      assert (foldl Z.max x l ≤ m).
      { rewrite Forall_forall in Hb. apply Hb.
        destruct Hin as [-> | Hin]; [left | by right]. }
      lia.
Qed.

Lemma truediv_max (m : Z) : m ≠ 0 → truediv m (Some m) = Finite 1.
Proof.
  intros Hm. unfold truediv.
  destruct (Z.eqb_spec m 0) as [|_]; [done|].
  f_equal. apply Rdiv_diag. by apply not_0_IZR.
Qed.

Lemma div_by_max_lookup (l : list Z) (i : nat) (x : Z) :
  l !! i = Some x → div_by_max l !! i = Some (truediv x (series_max l)).
Proof. intros H. unfold div_by_max. by rewrite list_lookup_fmap, H. Qed.

Lemma div_by_max_at_max (l : list Z) (i : nat) (x : Z) :
  l !! i = Some x → (∀ y, y ∈ l → y ≤ x) → x ≠ 0 →
  div_by_max l !! i = Some (Finite 1).
Proof.
  intros Hi Hmax Hx. rewrite (div_by_max_lookup _ _ _ Hi).
  assert (series_max l = Some x) as ->.
  { apply series_max_spec. split.
    - eapply list_elem_of_lookup_2; eauto.
    - by apply Forall_forall. }
  by rewrite truediv_max.
Qed.

(** The state reached when every product label also occurs among the
    customers, whether the similarity computation then succeeds or not. *)
Lemma get_similarity_matrix_state (cs ps : DataFrame) rp nw rl mi :
  reads cs ps rp nw rl mi → rl ⊆ rp →
  ∃ c0 c1 cc cp,
    transform (fit rp) rp = Ok c0 ∧
    transform (fit rp) rl = Ok c1 ∧
    transform (fit (rp ++ rl)) rp = Ok cc ∧
    transform (fit (rp ++ rl)) rl = Ok cp ∧
    get_similarity_matrix (Frames cs ps) =
      (cosine_similarity (values2 (div_by_max nw) cc) (values2 (div_by_max mi) cp),
       Frames (customers_after cs c0 cc nw) (products_after ps c1 cp mi)).
Proof.
  intros Hr Hsub.
  destruct (transform_fit_total rp rp) as [c0 H0]; [done|].
  destruct (transform_fit_total rp rl) as [c1 H1]; [done|].
  destruct (transform_fit_total (rp ++ rl) rp) as [cc Hc];
    [apply subseteq_app_l|].
  destruct (transform_fit_total (rp ++ rl) rl) as [cp Hp];
    [apply subseteq_app_r|].
  exists c0, c1, cc, cp. do 4 (split; [done|]).
  by apply (get_similarity_matrix_run cs ps rp nw rl mi c0 c1 cc cp).
Qed.

(** C5, as the code has it.  Once the first encoding has passed (every
    product risk level occurs among the customers' risk profiles), the call
    leaves [net_worth / net_worth.max()] and
    [min_investment / min_investment.max()] in the two frames; a customer
    whose net worth is the largest one is normalised to exactly 1.0 provided
    that net worth is not zero, and likewise a product whose minimum
    investment is the largest one and not zero. *)
Theorem C5_maximum_normalizes_to_one (cs ps : DataFrame) rp nw rl mi :
  reads cs ps rp nw rl mi →
  rl ⊆ rp →
  customers (get_similarity_matrix (Frames cs ps)).2 !! "net_worth_normalized"
    = Some (ColFloat (div_by_max nw)) ∧
  products (get_similarity_matrix (Frames cs ps)).2 !! "min_investment_normalized"
    = Some (ColFloat (div_by_max mi)) ∧
  (∀ i x, nw !! i = Some x → (∀ y, y ∈ nw → y ≤ x) → x ≠ 0 →
          div_by_max nw !! i = Some (Finite 1)) ∧
  (∀ j x, mi !! j = Some x → (∀ y, y ∈ mi → y ≤ x) → x ≠ 0 →
          div_by_max mi !! j = Some (Finite 1)).
Proof.
  intros Hr Hsub.
  destruct (get_similarity_matrix_state _ _ _ _ _ _ Hr Hsub)
    as (c0 & c1 & cc & cp & _ & _ & _ & _ & ->).
  cbn [snd customers products]. unfold customers_after, products_after.
  repeat split.
  - by simplify_map_eq.
  - by simplify_map_eq.
  - apply div_by_max_at_max.
  - apply div_by_max_at_max.
Qed.

Lemma C5_maximum_normalizes_to_one_witness :
  customers (get_similarity_matrix demo).2 !! "net_worth_normalized"
    = Some (ColFloat (div_by_max [150000; 50000; 250000])) ∧
  products (get_similarity_matrix demo).2 !! "min_investment_normalized"
    = Some (ColFloat (div_by_max [750000; 0; 200])) ∧
  (∀ i x, [150000; 50000; 250000] !! i = Some x →
          (∀ y, y ∈ [150000; 50000; 250000] → y ≤ x) → x ≠ 0 →
          div_by_max [150000; 50000; 250000] !! i = Some (Finite 1)) ∧
  (∀ j x, [750000; 0; 200] !! j = Some x →
          (∀ y, y ∈ [750000; 0; 200] → y ≤ x) → x ≠ 0 →
          div_by_max [750000; 0; 200] !! j = Some (Finite 1)).
Proof.
  apply (C5_maximum_normalizes_to_one demo_customers demo_products
           ["High"; "Low"; "Medium"] [150000; 50000; 250000]
           ["High"; "Medium"; "Low"] [750000; 0; 200]).
  - repeat split; reflexivity.
  - intros s Hs. apply list_elem_of_In in Hs. apply list_elem_of_In.
    simpl in *. tauto.
Defined.

(** C5 as stated fails: the only customer has net worth 0, which is the
    maximum, and is normalised to NaN ([0 / 0]), not to 1.0. *)
Lemma C5_counterexample :
  customers penniless !! "net_worth" = Some (ColInt [0]) ∧
  [0] !! 0%nat = Some 0 ∧
  (∀ y, y ∈ [0] → y ≤ 0) ∧
  customers (get_similarity_matrix penniless).2 !! "net_worth_normalized"
    = Some (ColFloat [NaN]) ∧
  [NaN] !! 0%nat ≠ Some (Finite 1).
Proof.
  split; [reflexivity|]. split; [reflexivity|]. split.
  - intros y Hy. apply list_elem_of_In in Hy. simpl in Hy. lia.
  - split; [reflexivity | discriminate].
Qed.

(** ** Cosine similarity *)

(** The zero row has norm zero, is therefore divided by one, and stays
    the zero row. *)
Lemma normalize_zero : normalize (0%R, 0%R) = (0%R, 0%R).
Proof.
  unfold normalize, l2norm. cbn [fst snd].
  replace (0 * 0 + 0 * 0)%R with 0%R by lra. rewrite sqrt_0.
  rewrite decide_True by done. f_equal; lra.
Qed.

Lemma dot_zero_l (v : vec) : dot (0%R, 0%R) v = 0%R.
Proof. unfold dot. cbn [fst snd]. lra. Qed.

Lemma dot_zero_r (u : vec) : dot u (0%R, 0%R) = 0%R.
Proof. unfold dot. cbn [fst snd]. lra. Qed.

Lemma check_array_Ok (X : list (float64 * float64)) (Xv : list vec) :
  X ≠ [] → mapM finite_vec X = Some Xv → check_array X = Ok Xv.
Proof. intros Hne HX. unfold check_array. destruct X; [done|]. by rewrite HX. Qed.

Lemma cosine_similarity_Ok (X Y : list (float64 * float64)) (Xv Yv : list vec) :
  X ≠ [] → Y ≠ [] →
  mapM finite_vec X = Some Xv → mapM finite_vec Y = Some Yv →
  cosine_similarity X Y
    = Ok ((λ x, dot x <$> (normalize <$> Yv)) <$> (normalize <$> Xv)).
Proof.
  intros HX HY HXv HYv. unfold cosine_similarity.
  rewrite (check_array_Ok _ _ HX HXv), (check_array_Ok _ _ HY HYv).
  reflexivity.
Qed.

(** The entries computed for a zero row of either array are zero. *)
Lemma similarity_zero_row (Xv Yv : list vec) (i : nat) (row : list R) :
  Xv !! i = Some (0%R, 0%R) →
  ((λ x, dot x <$> (normalize <$> Yv)) <$> (normalize <$> Xv)) !! i = Some row →
  Forall (λ x, x = 0%R) row.
Proof.
  intros Hv Hrow. rewrite !list_lookup_fmap, Hv in Hrow. cbn in Hrow.
  injection Hrow as <-. rewrite normalize_zero.
  apply Forall_fmap, Forall_forall. intros y _. apply dot_zero_l.
Qed.

Lemma similarity_zero_column (Xv Yv : list vec) (j : nat) :
  Yv !! j = Some (0%R, 0%R) →
  Forall (λ row : list R, row !! j = Some 0%R)
         ((λ x, dot x <$> (normalize <$> Yv)) <$> (normalize <$> Xv)).
Proof.
  intros Hv. apply Forall_fmap, Forall_forall. intros x _. cbn.
  rewrite !list_lookup_fmap, Hv. cbn.
  by rewrite normalize_zero, dot_zero_r.
Qed.

Lemma normalize_unit : normalize (1%R, 0%R) = (1%R, 0%R).
Proof.
  unfold normalize, l2norm. cbn [fst snd].
  replace (1 * 1 + 0 * 0)%R with 1%R by lra. rewrite sqrt_1.
  destruct (decide (1%R = 0%R)) as [H | _]; [lra|].
  f_equal; lra.
Qed.

(** The example of the specification: one customer and one product, both
    of risk "High"; the codes agree, both normalised features are 1.0, and
    the similarity is 1. *)
Example similarity_of_equal_profiles :
  (get_similarity_matrix equal_profiles).1 = Ok [[1%R]].
Proof.
  unfold equal_profiles.
  rewrite (get_similarity_matrix_run _ _ ["High"] [150000] ["High"] [750000]
             [0] [0] [0] [0]);
    [| repeat split; reflexivity | reflexivity ..].
  cbn [fst]. unfold div_by_max. cbn [fmap list_fmap series_max foldl truediv Z.eqb].
  rewrite !Rdiv_diag by (apply not_0_IZR; lia).
  erewrite (cosine_similarity_Ok _ _ [(1%R, 0%R)] [(1%R, 0%R)]);
    [| discriminate | discriminate | reflexivity | reflexivity].
  cbn [fmap list_fmap]. rewrite normalize_unit.
  unfold dot. cbn [fst snd]. do 3 f_equal. lra.
Qed.

(** ** Shape of the similarity matrix *)

Lemma div_by_max_finite (l : list Z) (m : Z) :
  series_max l = Some m → m ≠ 0 →
  div_by_max l = Finite <$> ((λ x, IZR x / IZR m)%R <$> l).
Proof.
  intros Hmax Hm. unfold div_by_max. rewrite Hmax, <- list_fmap_compose.
  apply list_fmap_ext. intros _ x _. cbn. unfold truediv.
  by destruct (Z.eqb_spec m 0).
Qed.

Lemma series_max_nonempty (l : list Z) :
  l ≠ [] → ∃ m, series_max l = Some m.
Proof. destruct l; [done | cbn; eauto]. Qed.

Lemma values2_finite (rs : list R) (codes : list Z) :
  mapM finite_vec (values2 (Finite <$> rs) codes) = Some (zip rs (IZR <$> codes)).
Proof.
  unfold values2. apply mapM_Some.
  revert codes. induction rs as [|r rs IH]; intros [|c codes]; cbn;
    constructor; auto.
Qed.

Lemma length_values2 (a : list float64) (b : list Z) :
  length a = length b → length (values2 a b) = length a.
Proof. intros H. unfold values2. rewrite length_zip, length_fmap. lia. Qed.

Lemma length_div_by_max (l : list Z) : length (div_by_max l) = length l.
Proof. unfold div_by_max. by rewrite length_fmap. Qed.

Lemma has_rows_lookup (n : nat) (df : DataFrame) (c : string) (col : column) :
  has_rows n df → df !! c = Some col → column_length col = n.
Proof. intros H Hc. exact (H c col Hc). Qed.

(** The run under the conditions in which the code computes a matrix. *)
Lemma get_similarity_matrix_computes (cs ps : DataFrame) (nc np : nat) rp nw rl mi :
  reads cs ps rp nw rl mi →
  has_rows nc cs → has_rows np ps →
  (0 < nc)%nat → (0 < np)%nat →
  rl ⊆ rp →
  series_max nw ≠ Some 0 → series_max mi ≠ Some 0 →
  ∃ c0 c1 cc cp (Xv Yv : list vec),
    length Xv = nc ∧ length Yv = np ∧
    has_rows nc (customers_after cs c0 cc nw) ∧
    has_rows np (products_after ps c1 cp mi) ∧
    get_similarity_matrix (Frames cs ps) =
      (Ok ((λ x, dot x <$> (normalize <$> Yv)) <$> (normalize <$> Xv)),
       Frames (customers_after cs c0 cc nw) (products_after ps c1 cp mi)).
Proof.
  intros Hr Hcs Hps Hnc Hnp Hsub Hnw Hmi.
  destruct (get_similarity_matrix_state _ _ _ _ _ _ Hr Hsub)
    as (c0 & c1 & cc & cp & H0 & H1 & Hc & Hp & Hrun).
  destruct Hr as (Hrp & Hnw' & Hrl & Hmi').
  pose proof (has_rows_lookup _ _ _ _ Hcs Hrp) as Lrp.
  pose proof (has_rows_lookup _ _ _ _ Hcs Hnw') as Lnw.
  pose proof (has_rows_lookup _ _ _ _ Hps Hrl) as Lrl.
  pose proof (has_rows_lookup _ _ _ _ Hps Hmi') as Lmi.
  cbn in Lrp, Lnw, Lrl, Lmi.
  pose proof (transform_length _ _ _ Hc) as Lcc.
  pose proof (transform_length _ _ _ Hp) as Lcp.
  pose proof (transform_length _ _ _ H0) as Lc0.
  pose proof (transform_length _ _ _ H1) as Lc1.
  destruct (series_max_nonempty nw) as [mc Hmc]; [by destruct nw; cbn in *; [lia|]|].
  destruct (series_max_nonempty mi) as [mp Hmp]; [by destruct mi; cbn in *; [lia|]|].
  assert (mc ≠ 0) as Hmc0 by congruence.
  assert (mp ≠ 0) as Hmp0 by congruence.
  pose proof (div_by_max_finite _ _ Hmc Hmc0) as Dnw.
  pose proof (div_by_max_finite _ _ Hmp Hmp0) as Dmi.
  exists c0, c1, cc, cp,
    (zip ((λ x, IZR x / IZR mc)%R <$> nw) (IZR <$> cc)),
    (zip ((λ x, IZR x / IZR mp)%R <$> mi) (IZR <$> cp)).
  split; [rewrite length_zip, !length_fmap; lia|].
  split; [rewrite length_zip, !length_fmap; lia|].
  split.
  { unfold customers_after.
    repeat (apply map_Forall_insert_2;
            [cbn; rewrite ?length_div_by_max; lia|]).
    done. }
  split.
  { unfold products_after.
    repeat (apply map_Forall_insert_2;
            [cbn; rewrite ?length_div_by_max; lia|]).
    done. }
  rewrite Hrun. f_equal.
  apply cosine_similarity_Ok.
  - intros Hnil. apply (f_equal length) in Hnil.
    rewrite length_values2, length_div_by_max in Hnil; cbn in Hnil;
      [lia | rewrite length_div_by_max; lia].
  - intros Hnil. apply (f_equal length) in Hnil.
    rewrite length_values2, length_div_by_max in Hnil; cbn in Hnil;
      [lia | rewrite length_div_by_max; lia].
  - rewrite Dnw. apply values2_finite.
  - rewrite Dmi. apply values2_finite.
Qed.

(** The matrix the call returns, with the feature vectors spelled out. *)
Lemma get_similarity_matrix_features (cs ps : DataFrame) (nc np : nat) rp nw rl mi :
  reads cs ps rp nw rl mi →
  has_rows nc cs → has_rows np ps →
  (0 < nc)%nat → (0 < np)%nat →
  rl ⊆ rp →
  series_max nw ≠ Some 0 → series_max mi ≠ Some 0 →
  ∃ cc cp mc mp,
    series_max nw = Some mc ∧ mc ≠ 0 ∧
    series_max mi = Some mp ∧ mp ≠ 0 ∧
    transform (fit (rp ++ rl)) rp = Ok cc ∧
    transform (fit (rp ++ rl)) rl = Ok cp ∧
    (get_similarity_matrix (Frames cs ps)).1 =
      Ok ((λ x, dot x <$>
             (normalize <$>
                zip ((λ x, IZR x / IZR mp)%R <$> mi) (IZR <$> cp)))
          <$> (normalize <$>
                 zip ((λ x, IZR x / IZR mc)%R <$> nw) (IZR <$> cc))).
Proof.
  intros Hr Hcs Hps Hnc Hnp Hsub Hnw Hmi.
  destruct (get_similarity_matrix_state _ _ _ _ _ _ Hr Hsub)
    as (c0 & c1 & cc & cp & _ & _ & Hc & Hp & Hrun).
  destruct Hr as (Hrp & Hnw' & Hrl & Hmi').
  pose proof (has_rows_lookup _ _ _ _ Hcs Hrp) as Lrp.
  pose proof (has_rows_lookup _ _ _ _ Hcs Hnw') as Lnw.
  pose proof (has_rows_lookup _ _ _ _ Hps Hrl) as Lrl.
  pose proof (has_rows_lookup _ _ _ _ Hps Hmi') as Lmi.
  cbn in Lrp, Lnw, Lrl, Lmi.
  pose proof (transform_length _ _ _ Hc) as Lcc.
  pose proof (transform_length _ _ _ Hp) as Lcp.
  destruct (series_max_nonempty nw) as [mc Hmc];
    [by destruct nw; cbn in *; [lia|]|].
  destruct (series_max_nonempty mi) as [mp Hmp];
    [by destruct mi; cbn in *; [lia|]|].
  assert (mc ≠ 0) as Hmc0 by congruence.
  assert (mp ≠ 0) as Hmp0 by congruence.
  exists cc, cp, mc, mp. do 6 (split; [done|]).
  rewrite Hrun. cbn [fst].
  apply cosine_similarity_Ok.
  - intros Hnil. apply (f_equal length) in Hnil.
    rewrite length_values2, length_div_by_max in Hnil; cbn in Hnil;
      [lia | rewrite length_div_by_max; lia].
  - intros Hnil. apply (f_equal length) in Hnil.
    rewrite length_values2, length_div_by_max in Hnil; cbn in Hnil;
      [lia | rewrite length_div_by_max; lia].
  - rewrite (div_by_max_finite _ _ Hmc Hmc0). apply values2_finite.
  - rewrite (div_by_max_finite _ _ Hmp Hmp0). apply values2_finite.
Qed.

(** C3, as the code has it.  For customer and product tables with at least
    one row each in which every product risk level also occurs among the
    customers' risk profiles and neither the largest net worth nor the
    largest minimum investment is zero, [get_similarity_matrix] returns a
    matrix with one row per customer and one column per product.  (Nothing
    is said of the range of the entries: they are cosines computed in
    binary64 and can exceed 1 by a rounding error.) *)
Theorem C3_similarity_matrix_shape
    (cs ps : DataFrame) (nc np : nat) rp nw rl mi :
  reads cs ps rp nw rl mi →
  has_rows nc cs → has_rows np ps →
  (0 < nc)%nat → (0 < np)%nat →
  rl ⊆ rp →
  series_max nw ≠ Some 0 → series_max mi ≠ Some 0 →
  ∃ K : matrix,
    (get_similarity_matrix (Frames cs ps)).1 = Ok K ∧
    length K = nc ∧
    Forall (λ row, length row = np) K.
Proof.
  intros Hr Hcs Hps Hnc Hnp Hsub Hnw Hmi.
  destruct (get_similarity_matrix_computes _ _ _ _ _ _ _ _
              Hr Hcs Hps Hnc Hnp Hsub Hnw Hmi)
    as (c0 & c1 & cc & cp & Xv & Yv & LX & LY & _ & _ & ->).
  eexists. split; [reflexivity|]. split.
  - by rewrite !length_fmap.
  - apply Forall_fmap, Forall_fmap, Forall_forall. intros x _. cbn.
    by rewrite !length_fmap.
Qed.

Ltac frame_rows :=
  unfold has_rows, make_customers, make_products;
  repeat (apply map_Forall_insert_2; [reflexivity|]);
  apply map_Forall_empty.

Lemma C3_similarity_matrix_shape_witness :
  ∃ K : matrix,
    (get_similarity_matrix demo).1 = Ok K ∧
    length K = 3%nat ∧
    Forall (λ row, length row = 3%nat) K.
Proof.
  apply (C3_similarity_matrix_shape demo_customers demo_products 3 3
           ["High"; "Low"; "Medium"] [150000; 50000; 250000]
           ["High"; "Medium"; "Low"] [750000; 0; 200]).
  - repeat split; reflexivity.
  - frame_rows.
  - frame_rows.
  - lia.
  - lia.
  - intros s Hs. apply list_elem_of_In in Hs. apply list_elem_of_In.
    simpl in *. tauto.
  - discriminate.
  - discriminate.
Defined.

(** C3 as stated fails, in three ways, on tables with at least one row
    each.  The only customer of [penniless] has net worth 0: its normalised
    net worth is NaN and the similarity computation raises.  The product of
    [unseen_level] has a risk level that no customer has: the first encoder
    raises.  On [thirds] a matrix is returned, the codes being 2, 1 and 0
    in both tables, and its first entry, computed in binary64 as NumPy
    does, is 1.0000000000000002, above 1. *)
Lemma C3_counterexample :
  (has_rows 1 (customers penniless) ∧
   has_rows 1 (products penniless) ∧
   (get_similarity_matrix penniless).1
     = Raise (ValueError "Input contains NaN or infinity")) ∧
  (has_rows 1 (customers unseen_level) ∧
   has_rows 1 (products unseen_level) ∧
   (get_similarity_matrix unseen_level).1
     = Raise (ValueError "y contains previously unseen labels")) ∧
  (has_rows 3 (customers thirds) ∧
   has_rows 3 (products thirds) ∧
   customers (get_similarity_matrix thirds).2 !! "risk_profile_encoded"
     = Some (ColInt [2; 1; 0]) ∧
   products (get_similarity_matrix thirds).2 !! "risk_level_encoded"
     = Some (ColInt [2; 1; 0]) ∧
   ∃ K row x,
     Binary64.similarity [1; 3; 3] [2; 1; 0] [1; 3; 3] [2; 1; 0] = Ok K ∧
     K !! 0%nat = Some row ∧ row !! 0%nat = Some x ∧
     PrimFloat.ltb (Binary64.of_Z 1) x = true).
Proof.
  split; [|split].
  - split; [frame_rows|]. split; [frame_rows|]. reflexivity.
  - split; [frame_rows|]. split; [frame_rows|]. reflexivity.
  - split; [frame_rows|]. split; [frame_rows|].
    split; [reflexivity|]. split; [reflexivity|].
    eexists _, _, _. split; [vm_compute; reflexivity|].
    split; [reflexivity|]. split; [reflexivity|]. vm_compute. reflexivity.
Qed.

(** ** Zero vectors *)

(** In binary64 the number a row is divided by is never zero. *)
Lemma scale_never_zero (v : Binary64.vec) :
  PrimFloat.eqb (Binary64.scale v) (Binary64.of_Z 0) = false.
Proof.
  unfold Binary64.scale.
  destruct (PrimFloat.ltb (Binary64.l2norm v) _) eqn:E; [reflexivity|].
  destruct (PrimFloat.eqb (Binary64.l2norm v) _) eqn:Z; [|reflexivity].
  rewrite FloatAxioms.ltb_spec in E. rewrite FloatAxioms.eqb_spec in Z.
  destruct (FloatOps.Prim2SF (Binary64.l2norm v)) as [s| s | | s m e];
    try discriminate.
  - destruct s; vm_compute in E; discriminate.
  - destruct s; vm_compute in Z; discriminate.
Qed.

(** The zero row divided by its norm, as it would be without the
    replacement of a zero norm, is NaN. *)
Example zero_row_unguarded :
  PrimFloat.is_nan
    (PrimFloat.div (Binary64.of_Z 0)
       (Binary64.l2norm (Binary64.of_Z 0, Binary64.of_Z 0))) = true.
Proof. vm_compute. reflexivity. Qed.

Lemma binary64_finite_cases (x : PrimFloat.float) :
  Binary64.finite x = true →
  ∃ s, FloatOps.Prim2SF x = SpecFloat.S754_zero s ∨
       ∃ m e, FloatOps.Prim2SF x = SpecFloat.S754_finite s m e.
Proof.
  unfold Binary64.finite, PrimFloat.is_nan, PrimFloat.is_infinity.
  rewrite !FloatAxioms.eqb_spec, FloatAxioms.abs_spec.
  destruct (FloatOps.Prim2SF x) as [s| s | | s m e]; eauto.
  - vm_compute. destruct s; discriminate.
  - vm_compute. discriminate.
Qed.

Lemma binary64_mul_zero_l (y : PrimFloat.float) :
  Binary64.finite y = true →
  ∃ s, FloatOps.Prim2SF (PrimFloat.mul (Binary64.of_Z 0) y)
       = SpecFloat.S754_zero s.
Proof.
  intros H. destruct (binary64_finite_cases y H) as [s [Hy | (m & e & Hy)]];
    rewrite FloatAxioms.mul_spec, Hy; vm_compute; eauto.
Qed.

Lemma binary64_mul_zero_r (y : PrimFloat.float) :
  Binary64.finite y = true →
  ∃ s, FloatOps.Prim2SF (PrimFloat.mul y (Binary64.of_Z 0))
       = SpecFloat.S754_zero s.
Proof.
  intros H. destruct (binary64_finite_cases y H) as [s [Hy | (m & e & Hy)]];
    rewrite FloatAxioms.mul_spec, Hy; vm_compute; eauto.
Qed.

(** In binary64 the product of the zero row and a row of finite numbers is
    zero. *)
Lemma binary64_dot_zero (y : Binary64.vec) :
  Binary64.finite y.1 = true → Binary64.finite y.2 = true →
  PrimFloat.eqb (Binary64.dot (Binary64.of_Z 0, Binary64.of_Z 0) y)
                (Binary64.of_Z 0) = true ∧
  PrimFloat.eqb (Binary64.dot y (Binary64.of_Z 0, Binary64.of_Z 0))
                (Binary64.of_Z 0) = true.
Proof.
  intros H1 H2. unfold Binary64.dot. cbn [fst snd]. split.
  - destruct (binary64_mul_zero_l _ H1) as [s1 E1].
    destruct (binary64_mul_zero_l _ H2) as [s2 E2].
    rewrite FloatAxioms.eqb_spec, FloatAxioms.add_spec, E1, E2.
    destruct s1, s2; vm_compute; reflexivity.
  - destruct (binary64_mul_zero_r _ H1) as [s1 E1].
    destruct (binary64_mul_zero_r _ H2) as [s2 E2].
    rewrite FloatAxioms.eqb_spec, FloatAxioms.add_spec, E1, E2.
    destruct s1, s2; vm_compute; reflexivity.
Qed.

Lemma zero_feature (l codes : list Z) (m : Z) (i : nat) :
  l !! i = Some 0 → codes !! i = Some 0 →
  zip ((λ x, IZR x / IZR m)%R <$> l) (IZR <$> codes) !! i = Some (0%R, 0%R).
Proof.
  intros Hl Hc. rewrite lookup_zip_with, !list_lookup_fmap, Hl, Hc. cbn.
  do 2 f_equal. unfold Rdiv. lra.
Qed.

(** C6, as the code has it.  On tables for which the matrix is computed
    (at least one row each, every product risk level among the customers'
    risk profiles, and neither maximum zero), the row of a customer whose
    feature vector is the zero vector (net worth 0 and risk code 0) holds
    only zeros, and so does the column of such a product.  No division by
    zero takes place, in binary64 either: the number a row is divided by is
    never zero, the zero row is divided by one and stays the zero row, and
    its product with a row of finite numbers is zero. *)
Theorem C6_zero_vector_similarity_is_zero
    (cs ps : DataFrame) (nc np : nat) rp nw rl mi :
  reads cs ps rp nw rl mi →
  has_rows nc cs → has_rows np ps →
  (0 < nc)%nat → (0 < np)%nat →
  rl ⊆ rp →
  series_max nw ≠ Some 0 → series_max mi ≠ Some 0 →
  (∃ (K : matrix) (cc cp : list Z),
     (get_similarity_matrix (Frames cs ps)).1 = Ok K ∧
     transform (fit (rp ++ rl)) rp = Ok cc ∧
     transform (fit (rp ++ rl)) rl = Ok cp ∧
     (∀ i row, nw !! i = Some 0 → cc !! i = Some 0 → K !! i = Some row →
               Forall (λ x, x = 0%R) row) ∧
     (∀ j, mi !! j = Some 0 → cp !! j = Some 0 →
           Forall (λ row, row !! j = Some 0%R) K)) ∧
  (∀ v, PrimFloat.eqb (Binary64.scale v) (Binary64.of_Z 0) = false) ∧
  Binary64.normalize (Binary64.of_Z 0, Binary64.of_Z 0)
    = (Binary64.of_Z 0, Binary64.of_Z 0) ∧
  (∀ y : Binary64.vec,
     Binary64.finite y.1 = true → Binary64.finite y.2 = true →
     PrimFloat.eqb (Binary64.dot (Binary64.of_Z 0, Binary64.of_Z 0) y)
                   (Binary64.of_Z 0) = true ∧
     PrimFloat.eqb (Binary64.dot y (Binary64.of_Z 0, Binary64.of_Z 0))
                   (Binary64.of_Z 0) = true).
Proof.
  intros Hr Hcs Hps Hnc Hnp Hsub Hnw Hmi.
  split; [|split; [apply scale_never_zero|split;
                   [vm_compute; reflexivity | apply binary64_dot_zero]]].
  destruct (get_similarity_matrix_features _ _ _ _ _ _ _ _
              Hr Hcs Hps Hnc Hnp Hsub Hnw Hmi)
    as (cc & cp & mc & mp & _ & _ & _ & _ & Hc & Hp & HK).
  eexists _, cc, cp. split; [exact HK|]. do 2 (split; [done|]). split.
  - intros i row Hi Hci Hrow.
    eapply similarity_zero_row; [|exact Hrow]. by apply zero_feature.
  - intros j Hj Hcj. by apply similarity_zero_column, zero_feature.
Qed.

Lemma C6_zero_vector_similarity_is_zero_witness :
  (∃ (K : matrix) (cc cp : list Z),
     (get_similarity_matrix zero_vectors).1 = Ok K ∧
     transform (fit (["High"; "Low"] ++ ["High"; "Low"])) ["High"; "Low"]
       = Ok cc ∧
     transform (fit (["High"; "Low"] ++ ["High"; "Low"])) ["High"; "Low"]
       = Ok cp ∧
     (∀ i row, [0; 50000] !! i = Some 0 → cc !! i = Some 0 →
               K !! i = Some row → Forall (λ x, x = 0%R) row) ∧
     (∀ j, [0; 200] !! j = Some 0 → cp !! j = Some 0 →
           Forall (λ row, row !! j = Some 0%R) K)) ∧
  (∀ v, PrimFloat.eqb (Binary64.scale v) (Binary64.of_Z 0) = false) ∧
  Binary64.normalize (Binary64.of_Z 0, Binary64.of_Z 0)
    = (Binary64.of_Z 0, Binary64.of_Z 0) ∧
  (∀ y : Binary64.vec,
     Binary64.finite y.1 = true → Binary64.finite y.2 = true →
     PrimFloat.eqb (Binary64.dot (Binary64.of_Z 0, Binary64.of_Z 0) y)
                   (Binary64.of_Z 0) = true ∧
     PrimFloat.eqb (Binary64.dot y (Binary64.of_Z 0, Binary64.of_Z 0))
                   (Binary64.of_Z 0) = true).
Proof.
  apply (C6_zero_vector_similarity_is_zero
           (make_customers [1; 2] ["High"; "Low"] [0; 50000])
           (make_products [1; 2] ["High"; "Low"] [0; 200]) 2 2
           ["High"; "Low"] [0; 50000] ["High"; "Low"] [0; 200]).
  - repeat split; reflexivity.
  - frame_rows.
  - frame_rows.
  - lia.
  - lia.
  - done.
  - discriminate.
  - discriminate.
Defined.

(** C6 as stated fails on its own example.  The only customer of
    [penniless] has net worth 0 and risk code 0, but its feature vector is
    not the zero vector: the net worth is divided by the largest one, which
    is 0, the quotient 0/0 is NaN, and the similarity computation raises
    instead of giving 0. *)
Lemma C6_counterexample :
  customers penniless !! "net_worth" = Some (ColInt [0]) ∧
  customers (get_similarity_matrix penniless).2 !! "risk_profile_encoded"
    = Some (ColInt [0]) ∧
  customers (get_similarity_matrix penniless).2 !! "net_worth_normalized"
    = Some (ColFloat [NaN]) ∧
  PrimFloat.is_nan <$> Binary64.div_by_max [0] = [true] ∧
  (get_similarity_matrix penniless).1
    = Raise (ValueError "Input contains NaN or infinity").
Proof.
  split; [reflexivity|]. split; [reflexivity|]. split; [reflexivity|].
  split; [vm_compute; reflexivity | reflexivity].
Qed.

(** ** Ranking *)

Lemma by_score_transitive (scores : list R) : Transitive (by_score scores).
Proof. intros i j k. unfold by_score. lra. Qed.

Lemma by_score_total (scores : list R) : Total (by_score scores).
Proof.
  intros i j. unfold by_score.
  destruct (Rle_dec (score_at scores i) (score_at scores j)); [by left|].
  right. lra.
Qed.

Lemma argsort_permutation (scores : list R) :
  argsort scores ≡ₚ seq 0 (length scores).
Proof. apply merge_sort_Permutation. Qed.

Lemma argsort_sorted (scores : list R) :
  StronglySorted (by_score scores) (argsort scores).
Proof.
  apply StronglySorted_merge_sort;
    [apply by_score_transitive | apply by_score_total].
Qed.

(** A slice [a[start:]] is what is left of [a] after dropping a prefix. *)
Lemma slice_from_drop {A} (start : Z) (a : list A) :
  ∃ k : nat, slice_from start a = drop k a ∧
    (start < 0 → k = (length a - Z.to_nat (- start))%nat) ∧
    (0 ≤ start → k = Nat.min (Z.to_nat start) (length a)).
Proof.
  unfold slice_from. eexists. split; [reflexivity|].
  destruct (Z.ltb_spec start 0); split; intros; lia.
Qed.

Lemma strongly_sorted_reverse {A} (R : relation A) (l : list A) :
  Transitive R → StronglySorted R l → StronglySorted (flip R) (reverse l).
Proof.
  intros HR Hl. apply Sorted_StronglySorted.
  - intros x y z Hxy Hyz. unfold flip in *. by transitivity y.
  - by apply Sorted_reverse, StronglySorted_Sorted.
Qed.

(** The positions chosen by [argsort()[-top_n:][::-1]]. *)
Lemma product_indices_spec (scores : list R) (top_n : Z) :
  let chosen := product_indices scores top_n in
  chosen ⊆ seq 0 (length scores) ∧
  NoDup chosen ∧
  (length chosen ≤ length scores)%nat ∧
  (1 ≤ top_n → length chosen = Nat.min (Z.to_nat top_n) (length scores)) ∧
  (Z.of_nat (length scores) ≤ top_n → chosen ≡ₚ seq 0 (length scores)) ∧
  StronglySorted (λ x y, (y <= x)%R) (score_at scores <$> chosen).
Proof.
  intros chosen. subst chosen. unfold product_indices.
  destruct (slice_from_drop (- top_n) (argsort scores)) as (k & -> & Hneg & Hpos).
  pose proof (argsort_permutation scores) as Hperm.
  pose proof (argsort_sorted scores) as Hsorted.
  assert (length (argsort scores) = length scores) as Hlen.
  { by rewrite Hperm, length_seq. }
  assert (NoDup (argsort scores)) as Hnd.
  { rewrite Hperm. apply NoDup_seq. }
  rewrite <- (take_drop k (argsort scores)) in Hperm, Hsorted, Hnd.
  apply StronglySorted_app_1_r in Hsorted.
  apply NoDup_app in Hnd as (_ & _ & Hnd).
  repeat split.
  - intros i Hi. rewrite <- Hperm. rewrite elem_of_reverse in Hi.
    apply elem_of_app. by right.
  - by rewrite reverse_Permutation.
  - rewrite length_reverse, length_drop. lia.
  - intros Htop. rewrite length_reverse, length_drop, Hlen.
    rewrite Hneg by lia. rewrite Z.opp_involutive. lia.
  - intros Htop. rewrite reverse_Permutation.
    assert (k = 0%nat) as ->.
    { destruct (Z.ltb_spec (- top_n) 0).
      - rewrite Hneg by lia. rewrite Z.opp_involutive. lia.
      - rewrite Hpos by lia. lia. }
    rewrite drop_0. apply argsort_permutation.
  - apply (StronglySorted_fmap _ (flip (by_score scores))).
    + intros i j Hij. exact Hij.
    + apply strongly_sorted_reverse; [apply by_score_transitive | done].
Qed.

Lemma first_position_Some (v : Z) (rows : list Z) :
  v ∈ rows → ∃ i, first_position v rows = Some i ∧ rows !! i = Some v.
Proof.
  induction rows as [|x rows IH]; intros Hv; [inversion Hv|]. cbn.
  destruct (Z.eqb_spec x v) as [->|Hne].
  - by exists 0%nat.
  - apply elem_of_cons in Hv as [-> | Hv]; [done|].
    destruct (IH Hv) as (i & -> & Hi). by exists (S i).
Qed.

Lemma column_iloc_Some (idx : list nat) (c : column) :
  Forall (λ i, (i < column_length c)%nat) idx →
  ∃ c', column_iloc idx c = Some c' ∧ column_length c' = length idx.
Proof.
  intros Hidx.
  assert (∀ A (l : list A), length l = column_length c →
            ∃ k, mapM (λ i, l !! i) idx = Some k ∧ length k = length idx) as Hsel.
  { intros A l Hl.
    destruct (mapM_is_Some_2 (λ i, l !! i) idx) as [k Hk].
    - eapply Forall_impl; [exact Hidx|]. intros i Hi. cbn.
      apply lookup_lt_is_Some. cbv beta in Hi. lia.
    - exists k. split; [done|]. symmetry. by eapply length_mapM. }
  destruct c as [l|l|l]; cbn;
    (destruct (Hsel _ l eq_refl) as (k & -> & Hk); cbn; eauto).
Qed.

Lemma iloc_Ok (df : DataFrame) (n : nat) (idx : list nat) :
  has_rows n df → Forall (λ i, (i < n)%nat) idx →
  ∃ selected, iloc df idx = Ok selected ∧ has_rows (length idx) selected.
Proof.
  intros Hdf Hidx. unfold iloc.
  assert (∀ c col, df !! c = Some col →
            ∃ c', column_iloc idx col = Some c' ∧ column_length c' = length idx)
    as Hcol.
  { intros c col Hc. apply column_iloc_Some.
    by rewrite (has_rows_lookup _ _ _ _ Hdf Hc). }
  destruct (decide _) as [_ | Hno].
  - eexists. split; [reflexivity|].
    intros c col' Hc. apply lookup_omap_Some in Hc as (col & Hsel & Hc).
    destruct (Hcol _ _ Hc) as (c' & Hc' & Hlen). congruence.
  - exfalso. apply Hno. intros c col Hc.
    destruct (Hcol _ _ Hc) as (c' & -> & _). eauto.
Qed.

(** C4, as the code has it.  For a customer present in the customer table,
    when the similarity matrix can be computed (there is at least one
    product, every product risk level also occurs among the customers' risk
    profiles, and neither the largest net worth nor the largest minimum
    investment is zero), [get_recommendations] returns rows of the product
    table taken at distinct positions, hence never more rows than the table
    has: [min top_n #products] rows when [top_n >= 1], that is every product
    once when the table has no more than [top_n] rows; the similarity scores
    of the returned rows are non-increasing. *)
Theorem C4_top_n_recommendations (cs ps : DataFrame) (nc np : nat)
    ids rp nw rl mi (customer_id top_n : Z) :
  reads cs ps rp nw rl mi →
  cs !! "id" = Some (ColInt ids) →
  customer_id ∈ ids →
  has_rows nc cs → has_rows np ps →
  (0 < np)%nat →
  rl ⊆ rp →
  series_max nw ≠ Some 0 → series_max mi ≠ Some 0 →
  ∃ (idx : nat) (K : matrix) (scores : list R) (recommended : DataFrame),
    first_position customer_id ids = Some idx ∧
    (get_similarity_matrix (Frames cs ps)).1 = Ok K ∧
    K !! idx = Some scores ∧
    length scores = np ∧
    (get_recommendations customer_id top_n (Frames cs ps)).1 = Ok recommended ∧
    iloc (products (get_similarity_matrix (Frames cs ps)).2)
         (product_indices scores top_n) = Ok recommended ∧
    has_rows (length (product_indices scores top_n)) recommended ∧
    (length (product_indices scores top_n) ≤ np)%nat ∧
    NoDup (product_indices scores top_n) ∧
    (1 ≤ top_n →
     length (product_indices scores top_n) = Nat.min (Z.to_nat top_n) np) ∧
    (Z.of_nat np ≤ top_n → product_indices scores top_n ≡ₚ seq 0 np) ∧
    StronglySorted (λ x y, (y <= x)%R)
                   (score_at scores <$> product_indices scores top_n).
Proof.
  intros Hr Hid Hcust Hcs Hps Hnp Hsub Hnw Hmi.
  destruct (first_position_Some _ _ Hcust) as (idx & Hfirst & Hidx).
  assert (idx < nc)%nat as Hlt.
  { pose proof (has_rows_lookup _ _ _ _ Hcs Hid) as Hlen. cbn in Hlen.
    apply lookup_lt_Some in Hidx. lia. }
  destruct (get_similarity_matrix_computes _ _ _ _ _ _ _ _
              Hr Hcs Hps ltac:(lia) Hnp Hsub Hnw Hmi)
    as (c0 & c1 & cc & cp & Xv & Yv & LX & LY & _ & Hrows & Hrun).
  destruct (lookup_lt_is_Some_2 Xv idx) as [x Hx]; [lia|].
  set (scores := dot (normalize x) <$> (normalize <$> Yv)).
  assert (length scores = np) as Hlen by (subst scores; by rewrite !length_fmap).
  destruct (product_indices_spec scores top_n)
    as (Hin & Hnd & Hle & Hmin & Hall & Hsorted).
  rewrite Hlen in Hin, Hle, Hmin, Hall.
  destruct (iloc_Ok _ _ (product_indices scores top_n) Hrows)
    as (recommended & Hiloc & Hrec).
  { apply Forall_forall. intros i Hi. apply Hin, elem_of_seq in Hi. lia. }
  rewrite Hrun.
  exists idx, ((λ x, dot x <$> (normalize <$> Yv)) <$> (normalize <$> Xv)),
    scores, recommended. cbn [fst snd products].
  split; [done|]. split; [done|]. split.
  { by rewrite !list_lookup_fmap, Hx. }
  split; [done|]. split.
  { unfold get_recommendations.
    rewrite bind_run. erewrite getitem_int_run by (cbn; eauto).
    cbv beta iota. rewrite Hfirst.
    rewrite bind_run. cbn [mret M_ret]. cbv beta iota.
    rewrite bind_run, Hrun. cbv beta iota.
    rewrite !list_lookup_fmap, Hx. cbn [fmap option_fmap option_map].
    rewrite bind_run. cbn [mret M_ret]. cbv beta iota.
    rewrite bind_run. unfold get_state. cbv beta iota.
    rewrite lift_run. cbn [fst products]. exact Hiloc. }
  auto 10.
Qed.

Lemma C4_top_n_recommendations_witness :
  ∃ (idx : nat) (K : matrix) (scores : list R) (recommended : DataFrame),
    first_position 2 [1; 2; 3] = Some idx ∧
    (get_similarity_matrix demo).1 = Ok K ∧
    K !! idx = Some scores ∧
    length scores = 3%nat ∧
    (get_recommendations 2 2 demo).1 = Ok recommended ∧
    iloc (products (get_similarity_matrix demo).2)
         (product_indices scores 2) = Ok recommended ∧
    has_rows (length (product_indices scores 2)) recommended ∧
    (length (product_indices scores 2) ≤ 3)%nat ∧
    NoDup (product_indices scores 2) ∧
    (1 ≤ 2 → length (product_indices scores 2) = Nat.min (Z.to_nat 2) 3) ∧
    (Z.of_nat 3 ≤ 2 → product_indices scores 2 ≡ₚ seq 0 3) ∧
    StronglySorted (λ x y, (y <= x)%R)
                   (score_at scores <$> product_indices scores 2).
Proof.
  apply (C4_top_n_recommendations demo_customers demo_products 3 3
           [1; 2; 3] ["High"; "Low"; "Medium"] [150000; 50000; 250000]
           ["High"; "Medium"; "Low"] [750000; 0; 200] 2 2).
  - repeat split; reflexivity.
  - reflexivity.
  - apply list_elem_of_In. simpl. tauto.
  - frame_rows.
  - frame_rows.
  - lia.
  - intros s Hs. apply list_elem_of_In in Hs. apply list_elem_of_In.
    simpl in *. tauto.
  - discriminate.
  - discriminate.
Defined.

(** C4 as stated fails: the customer is present, but with an empty product
    table (fewer rows than [top_n]) the call raises instead of returning the
    rows there are, and it raises as well when the only customer has no net
    worth. *)
Lemma C4_counterexample :
  customers no_products !! "id" = Some (ColInt [1]) ∧
  customers penniless !! "id" = Some (ColInt [1]) ∧
  first_position 1 [1] = Some 0%nat ∧
  (get_recommendations 1 2 no_products).1
    = Raise (ValueError "Found array with 0 sample(s)") ∧
  (get_recommendations 1 2 penniless).1
    = Raise (ValueError "Input contains NaN or infinity").
Proof. repeat split; reflexivity. Qed.

(** ** The referral form *)

Lemma lstrip_blank (s : string) : blank s = true → lstrip s = EmptyString.
Proof.
  unfold blank. induction s as [|c s IH]; cbn; [done|].
  intros H. apply andb_true_iff in H as [Hc Hs]. rewrite Hc. auto.
Qed.

Lemma strip_blank (s : string) : blank s = true → strip s = EmptyString.
Proof. intros H. unfold strip. by rewrite lstrip_blank. Qed.

Lemma lstrip_not_blank (s : string) :
  blank s = false →
  ∃ c s', lstrip s = String c s' ∧ isspace c = false.
Proof.
  unfold blank. induction s as [|c s IH]; cbn; [done|].
  destruct (isspace c) eqn:Hc; cbn; eauto.
Qed.

Lemma rstrip_keeps_head (c : ascii) (s : string) :
  isspace c = false → ∃ s', rstrip (String c s) = String c s'.
Proof. intros Hc. cbn. destruct (rstrip s); rewrite ?Hc; eauto. Qed.

(** What [not customer_name.strip()] tests is blankness. *)
Lemma strip_truthy (s : string) : truthy (strip s) = negb (blank s).
Proof.
  destruct (blank s) eqn:Hb.
  - by rewrite strip_blank.
  - destruct (lstrip_not_blank _ Hb) as (c & s' & Hl & Hc).
    unfold strip. rewrite Hl.
    by destruct (rstrip_keeps_head c s' Hc) as [s'' ->].
Qed.

(** The handler of the form, were it run on a blank customer name, would
    only show the validation message. *)
Lemma submit_referral_blank_name (referrer_name product_name : value)
    (customer_name now : string) (a : app) :
  blank customer_name = true →
  submit_referral referrer_name customer_name product_name now a
    = (Ok tt, App (db a) (ui a ++ [st_error "Please enter a customer name."])).
Proof.
  intros Hb. unfold submit_referral. rewrite strip_truthy, Hb. reflexivity.
Qed.

Lemma get_referrers_dict_state (a : app) : (get_referrers_dict a).2 = a.
Proof.
  unfold get_referrers_dict. rewrite bind_run. cbn.
  by destruct (select_two _ _ _ _).
Qed.

Lemma get_products_dict_state (a : app) : (get_products_dict a).2 = a.
Proof.
  unfold get_products_dict. rewrite bind_run. cbn.
  by destruct (select_two _ _ _ _).
Qed.

(** What a run of the page leaves of lines 316 to 345 when the form has not
    been submitted in it: the title, when the button "New Referral" started
    the run. *)
Lemma new_referral_not_submitted (a : app) :
  let run := (render (st_title "Submit a Referral");;
              referrer_names ← get_referrers_dict;
              product_names ← get_products_dict;
              mret tt) a in
  run.2 = App (db a) (ui a ++ [st_title "Submit a Referral"]).
Proof.
  cbv zeta. rewrite bind_run. cbn [render modify].
  rewrite bind_run.
  pose proof (get_referrers_dict_state
                (App (db a) (ui a ++ [st_title "Submit a Referral"]))) as H1.
  destruct (get_referrers_dict _) as [[r|e] a1]; cbn in H1; subst a1;
    [|reflexivity].
  rewrite bind_run.
  pose proof (get_products_dict_state
                (App (db a) (ui a ++ [st_title "Submit a Referral"]))) as H2.
  by destruct (get_products_dict _) as [[r'|e] a2]; cbn in H2; subst a2.
Qed.

(** C8, as the code has it.  The handler that shows the validation message
    sits under [if col2.button("New Referral")].  The run that a click on
    "Submit Referral" starts finds that button [False]: the form is not
    drawn, the handler is not run, nothing is shown and the store is not
    touched, whatever the customer name.  In no run of the page at all is
    the validation message shown: a run leaves the store as it was and adds
    nothing to the page but, when "New Referral" started it, the title of
    the form. *)
Theorem C8_validation_message_never_shown (trigger : option widget)
    (referrer_name product_name : value) (customer_name now : string)
    (a : app) :
  new_referral (Some submit_referral_button)
               referrer_name customer_name product_name now a = (Ok tt, a) ∧
  let run :=
    new_referral trigger referrer_name customer_name product_name now a in
  db run.2 = db a ∧
  (ui run.2 = ui a ∨ ui run.2 = ui a ++ [st_title "Submit a Referral"]).
Proof.
  split; [reflexivity|]. cbv zeta. unfold new_referral.
  destruct (button trigger new_referral_button) eqn:Hb; [|auto].
  apply bool_decide_eq_true in Hb as ->.
  change (button (Some new_referral_button) submit_referral_button)
    with false. cbv iota.
  rewrite (new_referral_not_submitted a). cbn. auto.
Qed.

(** An [INSERT] that names columns of the table adds the row, with the next
    key. *)
Example demo_db_referrers :
  rows <$> demo_db !! "referrers"
    = Some [[VInt 1; VText "John Smith"; VInt 1500; VText "Bronze, Silver"]].
Proof. reflexivity. Qed.

(** SQLite rejects an [INSERT] that names a column the table does not have,
    and the store is left as it was. *)
Lemma execute_insert_unknown_column (name : string) (cols : list string)
    (vals : list value) (d : database) (t : table) (c : string) :
  d !! name = Some t → c ∈ cols → c ∉ columns t →
  ∃ msg, execute_insert name cols vals d = Raise (SqliteError msg).
Proof.
  intros Ht Hc Hno. unfold execute_insert. rewrite Ht.
  destruct (list_find _ cols) as [[i c']|] eqn:Hfind; [eauto|].
  exfalso. eapply list_find_None in Hfind.
  rewrite Forall_forall in Hfind. by apply (Hfind c).
Qed.

(** Whatever is submitted, the referral form cannot add a row to a
    [referrals] table that has no [user_id] column, such as the one
    [create_tables] declares. *)
Lemma submit_referral_never_inserts (referrer_name product_name : value)
    (customer_name now : string) (a : app) (t : table) :
  db a !! "referrals" = Some t → "user_id" ∉ columns t →
  db (submit_referral referrer_name customer_name product_name now a).2 = db a.
Proof.
  intros Ht Hno. unfold submit_referral.
  destruct (negb (truthy (strip customer_name))); [reflexivity|].
  rewrite bind_run.
  destruct (get_referrers_dict a) as [[referrers|e] a1] eqn:E1.
  2:{ unfold get_referrers_dict in E1. rewrite bind_run in E1. cbn in E1.
      destruct (select_two _ _ _ _); cbn in E1; by injection E1 as _ <-. }
  assert (a1 = a) as ->.
  { unfold get_referrers_dict in E1. rewrite bind_run in E1. cbn in E1.
    destruct (select_two _ _ _ _); cbn in E1; by injection E1 as _ <-. }
  rewrite bind_run, lift_run.
  destruct (dict_getitem referrers referrer_name) as [referrer_id|]; [|done].
  rewrite bind_run.
  destruct (get_products_dict a) as [[products|e] a1] eqn:E2.
  2:{ unfold get_products_dict in E2. rewrite bind_run in E2. cbn in E2.
      destruct (select_two _ _ _ _); cbn in E2; by injection E2 as _ <-. }
  assert (a1 = a) as ->.
  { unfold get_products_dict in E2. rewrite bind_run in E2. cbn in E2.
    destruct (select_two _ _ _ _); cbn in E2; by injection E2 as _ <-. }
  rewrite bind_run, lift_run.
  destruct (dict_getitem products product_name) as [product_id|]; [|done].
  rewrite bind_run. unfold connect. rewrite bind_run, lift_run.
  edestruct (execute_insert_unknown_column "referrals") as [msg ->];
    [exact Ht | | exact Hno | reflexivity].
  left.
Qed.

(** C1 on the code.  On the store [create_tables] sets up, with a referrer
    and a product to choose, submitting a referral for the customer Alice
    raises SQLite's error about the column [user_id], which the [referrals]
    table does not have; no row is added and no success message is shown. *)
Theorem C1_referral_insert_fails :
  submit_referral (VText "John Smith") "Alice" (VText "Credit Card")
                  "2024-11-05 10:00:00" (App demo_db [])
    = (Raise (SqliteError "table referrals has no column named user_id"),
       App demo_db []).
Proof. reflexivity. Qed.

(** ** Adding a customer *)

Lemma add_customer_never_inserts (name risk_profile : string) (net_worth : Z)
    (a : app) (t : table) :
  db a !! "customers" = Some t → "name" ∉ columns t →
  ∃ msg, add_customer name net_worth risk_profile a
           = (Ok false, App (db a) (ui a ++ [st_error msg])).
Proof.
  intros Ht Hno. unfold add_customer, try_except.
  rewrite bind_run. unfold connect. rewrite bind_run, lift_run.
  edestruct (execute_insert_unknown_column "customers") as [msg ->];
    [exact Ht | | exact Hno | cbn; eauto].
  left.
Qed.

(** C9 on the code.  On the store [create_tables] sets up, adding the
    customer Alice returns False: the statement names a column [name] that
    the [customers] table does not have, SQLite rejects it, and the table is
    left without the new row. *)
Theorem C9_add_customer_fails :
  add_customer "Alice" 1000 "Low" (App demo_db [])
    = (Ok false,
       App demo_db
           [st_error "An error occurred: table customers has no column named name"]).
Proof. reflexivity. Qed.

(** ** Reading a table *)

(** A query that SQLite rejects on an open connection is handled: the
    error is printed, the connection is closed, and an empty frame is
    returned. *)
Lemma run_read_sql_query_error (c : nat) (read : string → nat → result DataFrame)
    (query msg : string) :
  read query c = Raise (SqliteError msg) →
  run_read_sql (Storage (Ok c) read) query fresh_locals
    = (Ok ∅, Locals (Some c) (Some ∅) ["An error occurred: " +:+ msg] [c]).
Proof.
  intros Hread.
  unfold run_read_sql, try_finally, try_except, mbind, M_bind, lift.
  cbn. rewrite Hread. reflexivity.
Qed.

Lemma run_read_sql_rows (c : nat) (read : string → nat → result DataFrame)
    (query : string) (d : DataFrame) :
  read query c = Ok d →
  run_read_sql (Storage (Ok c) read) query fresh_locals
    = (Ok d, Locals (Some c) (Some d) [] [c]).
Proof.
  intros Hread.
  unfold run_read_sql, try_finally, try_except, mbind, M_bind, lift.
  cbn. rewrite Hread. reflexivity.
Qed.

(** C7 on the code.  When the file cannot be opened, [sqlite3.connect]
    raises before [conn] is assigned; the handler prints the error and sets
    the empty frame, but the [finally] block then reads [conn] and raises
    [UnboundLocalError], which the call propagates instead of returning the
    empty frame. *)
Theorem C7_connect_error_propagates (read : string → nat → result DataFrame)
    (query msg : string) :
  run_read_sql (Storage (Raise (SqliteError msg)) read) query fresh_locals
    = (Raise (UnboundLocalError "conn"),
       Locals None (Some ∅) ["An error occurred: " +:+ msg] []).
Proof. reflexivity. Qed.

Example unopenable_file :
  (run_read_sql unopenable "SELECT * FROM customers" fresh_locals).1
    = Raise (UnboundLocalError "conn").
Proof. reflexivity. Qed.

(** * Further properties of the recommender *)

Lemma customers_after_again (cs : DataFrame) (c0 cc nw : list Z) :
  customers_after (customers_after cs c0 cc nw) c0 cc nw
    = customers_after cs c0 cc nw.
Proof.
  unfold customers_after. apply map_eq. intros k.
  rewrite !lookup_insert. repeat case_decide; congruence.
Qed.

Lemma products_after_again (ps : DataFrame) (c1 cp mi : list Z) :
  products_after (products_after ps c1 cp mi) c1 cp mi
    = products_after ps c1 cp mi.
Proof.
  unfold products_after. apply map_eq. intros k.
  rewrite !lookup_insert. repeat case_decide; congruence.
Qed.

(** X1. Calling [get_similarity_matrix] again on the frames a first call
    has left returns the same matrix and leaves the frames as they are: the
    added columns are overwritten with the same values. *)
Theorem get_similarity_matrix_idempotent (cs ps : DataFrame) (K : matrix)
    (s' : frames) :
  get_similarity_matrix (Frames cs ps) = (Ok K, s') →
  get_similarity_matrix s' = (Ok K, s').
Proof.
  intros H.
  destruct (get_similarity_matrix_Ok_inv _ _ _ _ H)
    as (rp & nw & rl & mi & c0 & c1 & cc & cp & Hr & H0 & H1 & Hc & Hp).
  rewrite (get_similarity_matrix_run _ _ _ _ _ _ _ _ _ _ Hr H0 H1 Hc Hp) in H.
  injection H as HK <-.
  rewrite (get_similarity_matrix_run _ _ rp nw rl mi c0 c1 cc cp);
    [| | done ..].
  - by rewrite HK, customers_after_again, products_after_again.
  - destruct Hr as (Hrp & Hnw & Hrl & Hmi).
    unfold reads, customers_after, products_after.
    repeat split; by simplify_map_eq.
Qed.

Lemma get_similarity_matrix_idempotent_witness :
  get_similarity_matrix (get_similarity_matrix demo).2
    = (Ok ((λ x, dot x <$> (normalize <$>
              zip ((λ x, IZR x / IZR 750000)%R <$> [750000; 0; 200])
                  (IZR <$> [0; 2; 1])))
           <$> (normalize <$>
              zip ((λ x, IZR x / IZR 250000)%R <$> [150000; 50000; 250000])
                  (IZR <$> [0; 1; 2]))),
       (get_similarity_matrix demo).2).
Proof.
  apply (get_similarity_matrix_idempotent demo_customers demo_products).
  apply run_returns. reflexivity.
Defined.

(** A code is the position of its label among the classes. *)
Lemma index_of_lookup (s : string) (l : list string) (c : Z) :
  index_of s l = Some c →
  0 ≤ c < Z.of_nat (length l) ∧ l !! Z.to_nat c = Some s.
Proof.
  revert c. induction l as [|x l IH]; intros c; cbn; [discriminate|].
  destruct (String.eqb_spec s x) as [->|Hne].
  - intros [= <-]. split; [lia | reflexivity].
  - destruct (index_of s l) as [c'|]; [|discriminate].
    intros [= <-]. destruct (IH c' eq_refl) as [Hc Hl]. split; [lia|].
    replace (Z.to_nat (Z.succ c')) with (S (Z.to_nat c')) by lia. exact Hl.
Qed.

(** X2. When [get_similarity_matrix] returns, a customer and a product that
    were given the same code have the same risk label: different labels
    never share a code. *)
Theorem equal_codes_equal_labels (cs ps : DataFrame) (K : matrix) (s' : frames)
    (rp rl : list string) (rpe rle : list Z) (i j : nat) (a b : string) (code : Z) :
  get_similarity_matrix (Frames cs ps) = (Ok K, s') →
  cs !! "risk_profile" = Some (ColStr rp) →
  ps !! "risk_level" = Some (ColStr rl) →
  customers s' !! "risk_profile_encoded" = Some (ColInt rpe) →
  products s' !! "risk_level_encoded" = Some (ColInt rle) →
  rp !! i = Some a → rl !! j = Some b →
  rpe !! i = Some code → rle !! j = Some code →
  a = b.
Proof.
  intros H Hrp Hrl Hrpe Hrle Hi Hj Hci Hcj.
  destruct (get_similarity_matrix_Ok_state _ _ _ _ H)
    as (rp' & nw & rl' & mi & c0 & c1 & cc & cp & Hr & Hc & Hp & _ & ->).
  destruct Hr as (Hrp' & _ & Hrl' & _).
  rewrite Hrp in Hrp'. injection Hrp' as <-.
  rewrite Hrl in Hrl'. injection Hrl' as <-.
  cbn [customers products] in Hrpe, Hrle.
  unfold customers_after in Hrpe. unfold products_after in Hrle.
  simplify_map_eq.
  destruct (transform_lookup _ _ _ _ _ Hc Hi) as (ca & Ha & Hca).
  destruct (transform_lookup _ _ _ _ _ Hp Hj) as (cb & Hb & Hcb).
  assert (ca = code) as -> by congruence.
  assert (cb = code) as -> by congruence.
  apply index_of_lookup in Ha as [_ Ha]. apply index_of_lookup in Hb as [_ Hb].
  congruence.
Qed.

Lemma equal_codes_equal_labels_witness : "Low" = "Low".
Proof.
  eapply (equal_codes_equal_labels demo_customers demo_products _
           (get_similarity_matrix demo).2
           ["High"; "Low"; "Medium"] ["High"; "Medium"; "Low"]
           [0; 1; 2] [0; 2; 1] 1 2 "Low" "Low" 1);
    [apply run_returns; reflexivity | reflexivity ..].
Defined.

Lemma transform_codes_range (le : LabelEncoder) (y : list string) (codes : list Z) :
  transform le y = Ok codes →
  Forall (λ c, 0 ≤ c < Z.of_nat (length (classes_ le))) codes.
Proof.
  revert codes. induction y as [|s y IH]; cbn; intros codes H.
  - injection H as <-. constructor.
  - destruct (index_of s (classes_ le)) as [c|] eqn:Hc; [|discriminate].
    destruct (transform le y) as [cs|]; [|discriminate].
    cbn in H. injection H as <-. constructor; [|by apply IH].
    by apply index_of_lookup in Hc as [Hc _].
Qed.

(** X3. When [get_similarity_matrix] returns, every code it has written,
    for customers and for products, is a position among the distinct labels
    of both columns: at least 0 and below their number. *)
Theorem codes_within_classes (cs ps : DataFrame) (K : matrix) (s' : frames)
    (rp rl : list string) (rpe rle : list Z) :
  get_similarity_matrix (Frames cs ps) = (Ok K, s') →
  cs !! "risk_profile" = Some (ColStr rp) →
  ps !! "risk_level" = Some (ColStr rl) →
  customers s' !! "risk_profile_encoded" = Some (ColInt rpe) →
  products s' !! "risk_level_encoded" = Some (ColInt rle) →
  Forall (λ c, 0 ≤ c < Z.of_nat (length (np_unique (rp ++ rl)))) (rpe ++ rle).
Proof.
  intros H Hrp Hrl Hrpe Hrle.
  destruct (get_similarity_matrix_Ok_state _ _ _ _ H)
    as (rp' & nw & rl' & mi & c0 & c1 & cc & cp & Hr & Hc & Hp & _ & ->).
  destruct Hr as (Hrp' & _ & Hrl' & _).
  rewrite Hrp in Hrp'. injection Hrp' as <-.
  rewrite Hrl in Hrl'. injection Hrl' as <-.
  cbn [customers products] in Hrpe, Hrle.
  unfold customers_after in Hrpe. unfold products_after in Hrle.
  simplify_map_eq.
  apply Forall_app. split.
  - exact (transform_codes_range _ _ _ Hc).
  - exact (transform_codes_range _ _ _ Hp).
Qed.

Lemma codes_within_classes_witness :
  Forall (λ c, 0 ≤ c < Z.of_nat (length (np_unique
            (["High"; "Low"; "Medium"] ++ ["High"; "Medium"; "Low"]))))
         ([0; 1; 2] ++ [0; 2; 1]).
Proof.
  eapply (codes_within_classes demo_customers demo_products _
           (get_similarity_matrix demo).2
           ["High"; "Low"; "Medium"] ["High"; "Medium"; "Low"]);
    [apply run_returns; reflexivity | reflexivity ..].
Defined.

Lemma first_position_None (v : Z) (rows : list Z) :
  v ∉ rows → first_position v rows = None.
Proof.
  induction rows as [|x rows IH]; intros Hv; cbn; [done|].
  apply not_elem_of_cons in Hv as [Hne Hv].
  destruct (Z.eqb_spec x v); [congruence|]. by rewrite IH.
Qed.

(** X4. Asking recommendations for a customer id that the customer table
    does not hold raises [IndexError] before the similarity matrix is
    computed: the two frames are left untouched. *)
Theorem get_recommendations_unknown_customer (cs ps : DataFrame)
    (ids : list Z) (customer_id top_n : Z) :
  cs !! "id" = Some (ColInt ids) →
  customer_id ∉ ids →
  get_recommendations customer_id top_n (Frames cs ps)
    = (Raise IndexError, Frames cs ps).
Proof.
  intros Hid Hno. unfold get_recommendations.
  rewrite bind_run. erewrite getitem_int_run by (cbn; eauto).
  cbv beta iota. by rewrite (first_position_None _ _ Hno).
Qed.

Lemma get_recommendations_unknown_customer_witness :
  get_recommendations 7 2 (Frames demo_customers demo_products)
    = (Raise IndexError, Frames demo_customers demo_products).
Proof.
  apply (get_recommendations_unknown_customer demo_customers demo_products
           [1; 2; 3] 7 2).
  - reflexivity.
  - intros H. apply list_elem_of_In in H. simpl in H. lia.
Defined.

(** X5. With [top_n = 0] the slice [[-top_n:]] is the whole ranking, so
    that every product is selected, not none. *)
Theorem product_indices_zero_selects_all (scores : list R) :
  product_indices scores 0 ≡ₚ seq 0 (length scores).
Proof.
  unfold product_indices.
  destruct (slice_from_drop (- 0) (argsort scores)) as (k & -> & _ & Hk).
  rewrite (Hk ltac:(lia)), reverse_Permutation. cbn. apply argsort_permutation.
Qed.

(** X6. The selection is the top of the ranking: whatever [top_n], every
    product that is not selected scores no higher than every product that
    is. *)
Theorem product_indices_are_the_best (scores : list R) (top_n : Z) :
  Forall (λ i, Forall (λ j, j ∈ product_indices scores top_n ∨
                            (score_at scores j <= score_at scores i)%R)
                      (seq 0 (length scores)))
         (product_indices scores top_n).
Proof.
  unfold product_indices.
  destruct (slice_from_drop (- top_n) (argsort scores)) as (k & -> & _ & _).
  pose proof (argsort_permutation scores) as Hperm.
  pose proof (argsort_sorted scores) as Hsorted.
  rewrite <- (take_drop k (argsort scores)) in Hperm, Hsorted.
  apply StronglySorted_app in Hsorted as (Hcross & _ & _).
  apply Forall_forall. intros i Hi. apply Forall_forall. intros j Hj.
  rewrite elem_of_reverse in Hi.
  rewrite <- Hperm in Hj. apply elem_of_app in Hj as [Hj | Hj].
  - right. exact (Hcross j i Hj Hi).
  - left. by rewrite elem_of_reverse.
Qed.

Lemma transform_raises (le : LabelEncoder) (y : list string) (e : exn) :
  transform le y = Raise e →
  e = ValueError "y contains previously unseen labels".
Proof.
  induction y as [|s y IH]; cbn; [discriminate|].
  destruct (index_of s (classes_ le)); [|by intros [= <-]].
  destruct (transform le y); cbn; [discriminate|].
  intros [= <-]. by apply IH.
Qed.

Lemma transform_unseen (fitted y : list string) :
  ¬ y ⊆ fitted →
  transform (fit fitted) y = Raise (ValueError "y contains previously unseen labels").
Proof.
  intros Hno. destruct (transform (fit fitted) y) as [codes|e] eqn:H.
  - exfalso. apply Hno. intros s Hs.
    apply transform_seen in H. rewrite Forall_forall in H.
    apply elem_of_np_unique. exact (H s Hs).
  - by rewrite (transform_raises _ _ _ H).
Qed.

(** X7. When some product has a risk level that no customer has, the call
    raises [ValueError] out of the first encoder, and it has by then
    already written [risk_profile_encoded] into the customers frame: the
    products frame is untouched, the customers frame is not. *)
Theorem unseen_level_raises_after_mutation (cs ps : DataFrame) rp nw rl mi :
  reads cs ps rp nw rl mi →
  ¬ rl ⊆ rp →
  ∃ codes,
    transform (fit rp) rp = Ok codes ∧
    get_similarity_matrix (Frames cs ps)
      = (Raise (ValueError "y contains previously unseen labels"),
         Frames (<["risk_profile_encoded" := ColInt codes]> cs) ps).
Proof.
  intros (Hrp & Hnw & Hrl & Hmi) Hno.
  destruct (transform_fit_total rp rp) as [c0 H0]; [done|].
  exists c0. split; [done|].
  unfold get_similarity_matrix.
  run_step. run_step. unfold fit_transform. rewrite H0.
  cbn [mbind result_bind]. cbv beta iota.
  run_step. run_step. run_step. by rewrite (transform_unseen _ _ Hno).
Qed.

Lemma unseen_level_raises_after_mutation_witness :
  ∃ codes,
    transform (fit ["Low"]) ["Low"] = Ok codes ∧
    get_similarity_matrix unseen_level
      = (Raise (ValueError "y contains previously unseen labels"),
         Frames (<["risk_profile_encoded" := ColInt codes]>
                   (make_customers [1] ["Low"] [50000]))
                (make_products [1] ["High"] [10000])).
Proof.
  apply (unseen_level_raises_after_mutation _ _ ["Low"] [50000] ["High"] [10000]).
  - repeat split; reflexivity.
  - intros H. specialize (H "High" ltac:(left)).
    apply list_elem_of_In in H. simpl in H. intuition discriminate.
Defined.

Lemma truediv_by_zero_not_finite (x : Z) : finite (truediv x (Some 0)) = None.
Proof. unfold truediv. cbn. by destruct (x =? 0), (0 <? x). Qed.

(** X8. When the largest net worth is 0, the normalised net worth of every
    customer is NaN or infinite, and the call raises [ValueError] instead of
    returning a matrix, however the products look. *)
Theorem zero_maximum_raises (cs ps : DataFrame) (nc : nat) rp nw rl mi :
  reads cs ps rp nw rl mi →
  has_rows nc cs → (0 < nc)%nat →
  rl ⊆ rp →
  series_max nw = Some 0 →
  (get_similarity_matrix (Frames cs ps)).1
    = Raise (ValueError "Input contains NaN or infinity").
Proof.
  intros Hr Hcs Hnc Hsub Hmax.
  destruct (get_similarity_matrix_state _ _ _ _ _ _ Hr Hsub)
    as (c0 & c1 & cc & cp & _ & _ & Hc & _ & ->).
  destruct Hr as (Hrp & Hnw & _ & _).
  pose proof (has_rows_lookup _ _ _ _ Hcs Hrp) as Lrp.
  pose proof (has_rows_lookup _ _ _ _ Hcs Hnw) as Lnw.
  pose proof (transform_length _ _ _ Hc) as Lcc.
  cbn in Lrp, Lnw. cbn [fst].
  destruct nw as [|x nw]; [cbn in Lnw; lia|].
  destruct cc as [|c cc]; [cbn in Lcc; lia|].
  assert (mapM finite_vec (values2 (div_by_max (x :: nw)) (c :: cc)) = None)
    as Hnone.
  { apply mapM_None_2. unfold div_by_max. rewrite Hmax. left.
    unfold finite_vec. cbn [fst snd].
    by rewrite truediv_by_zero_not_finite. }
  unfold cosine_similarity, check_array. rewrite Hnone. reflexivity.
Qed.

Lemma zero_maximum_raises_witness :
  (get_similarity_matrix penniless).1
    = Raise (ValueError "Input contains NaN or infinity").
Proof.
  apply (zero_maximum_raises _ _ 1 ["Low"] [0] ["Low"] [200]).
  - repeat split; reflexivity.
  - frame_rows.
  - lia.
  - done.
  - reflexivity.
Defined.

(** X9. Where the column maximum is positive, every entry that is not
    negative is normalised to a number between 0 and 1. *)
Theorem div_by_max_unit_interval (l : list Z) (m : Z) (i : nat) (x : Z) :
  series_max l = Some m → 0 < m →
  l !! i = Some x → 0 ≤ x →
  ∃ r, div_by_max l !! i = Some (Finite r) ∧ (0 <= r <= 1)%R.
Proof.
  intros Hmax Hm Hi Hx.
  rewrite (div_by_max_lookup _ _ _ Hi), Hmax. unfold truediv.
  destruct (Z.eqb_spec m 0); [lia|].
  eexists. split; [reflexivity|].
  assert (x ≤ m) as Hle.
  { apply series_max_spec in Hmax as [_ Hall]. rewrite Forall_forall in Hall.
    apply Hall. eapply list_elem_of_lookup_2; eauto. }
  apply IZR_le in Hx, Hle. apply IZR_lt in Hm.
  pose proof (Rinv_0_lt_compat _ Hm) as Hinv.
  assert (IZR m * / IZR m = 1)%R as Hone by (apply Rinv_r; lra).
  unfold Rdiv. split; nra.
Qed.

Lemma div_by_max_unit_interval_witness :
  ∃ r, div_by_max [150000; 50000; 250000] !! 1%nat = Some (Finite r) ∧
       (0 <= r <= 1)%R.
Proof.
  apply (div_by_max_unit_interval [150000; 50000; 250000] 250000 1 50000);
    [reflexivity | lia | reflexivity | lia].
Defined.

Lemma normalize_nonneg (v : vec) :
  (0 <= v.1)%R → (0 <= v.2)%R →
  (0 <= (normalize v).1)%R ∧ (0 <= (normalize v).2)%R.
Proof.
  destruct v as [a b]. cbn [fst snd]. intros Ha Hb.
  unfold normalize. cbn [fst snd].
  set (n := if decide (l2norm (a, b) = 0%R) then 1%R else l2norm (a, b)).
  assert (0 < n)%R as Hn.
  { subst n. destruct (decide _) as [|Hnz]; [lra|].
    unfold l2norm in *. cbn [fst snd] in *.
    destruct (sqrt_pos (a * a + b * b)); [done | congruence]. }
  pose proof (Rinv_0_lt_compat _ Hn). unfold Rdiv. split; nra.
Qed.

Lemma features_nonneg (l codes : list Z) (m : Z) (le : LabelEncoder)
    (y : list string) :
  series_max l = Some m → m ≠ 0 → Forall (λ x, 0 ≤ x) l →
  transform le y = Ok codes →
  Forall (λ v : vec, (0 <= v.1)%R ∧ (0 <= v.2)%R)
         (zip ((λ x, IZR x / IZR m)%R <$> l) (IZR <$> codes)).
Proof.
  intros Hmax Hm Hl Hcodes.
  assert (0 < m) as Hpos.
  { apply series_max_spec in Hmax as [Hin _].
    rewrite Forall_forall in Hl. specialize (Hl m Hin). lia. }
  apply IZR_lt in Hpos. pose proof (Rinv_0_lt_compat _ Hpos) as Hinv.
  apply Forall_forall. intros [a b] Hv. cbn [fst snd].
  pose proof (elem_of_zip_l _ _ _ _ Hv) as Ha.
  pose proof (elem_of_zip_r _ _ _ _ Hv) as Hb.
  apply list_elem_of_fmap in Ha as (x & -> & Hx).
  apply list_elem_of_fmap in Hb as (c & -> & Hc).
  rewrite Forall_forall in Hl. specialize (Hl x Hx). apply IZR_le in Hl.
  pose proof (transform_codes_range _ _ _ Hcodes) as Hrange.
  rewrite Forall_forall in Hrange. destruct (Hrange c Hc) as [Hc0 _].
  apply IZR_le in Hc0. unfold Rdiv. split; nra.
Qed.

(** X10. For tables on which the matrix can be computed and in which no
    net worth and no minimum investment is negative, no similarity is
    negative. *)
Theorem similarities_not_negative (cs ps : DataFrame) (nc np : nat) rp nw rl mi :
  reads cs ps rp nw rl mi →
  has_rows nc cs → has_rows np ps →
  (0 < nc)%nat → (0 < np)%nat →
  rl ⊆ rp →
  series_max nw ≠ Some 0 → series_max mi ≠ Some 0 →
  Forall (λ x, 0 ≤ x) nw → Forall (λ x, 0 ≤ x) mi →
  ∃ K : matrix,
    (get_similarity_matrix (Frames cs ps)).1 = Ok K ∧
    Forall (Forall (λ x, (0 <= x)%R)) K.
Proof.
  intros Hr Hcs Hps Hnc Hnp Hsub Hnw Hmi Pnw Pmi.
  destruct (get_similarity_matrix_features _ _ _ _ _ _ _ _
              Hr Hcs Hps Hnc Hnp Hsub Hnw Hmi)
    as (cc & cp & mc & mp & Hmc & Hmc0 & Hmp & Hmp0 & Hc & Hp & ->).
  eexists. split; [reflexivity|].
  pose proof (features_nonneg _ _ _ _ _ Hmc Hmc0 Pnw Hc) as HX.
  pose proof (features_nonneg _ _ _ _ _ Hmp Hmp0 Pmi Hp) as HY.
  rewrite Forall_forall in HX, HY.
  apply Forall_fmap, Forall_fmap, Forall_forall. intros x Hx. cbn.
  apply Forall_fmap, Forall_fmap, Forall_forall. intros y Hy. cbn.
  destruct (HX x Hx) as [Hx1 Hx2]. destruct (HY y Hy) as [Hy1 Hy2].
  destruct (normalize_nonneg x Hx1 Hx2) as [Ha Hb].
  destruct (normalize_nonneg y Hy1 Hy2) as [Hc' Hd].
  unfold dot. nra.
Qed.

Lemma similarities_not_negative_witness :
  ∃ K : matrix,
    (get_similarity_matrix demo).1 = Ok K ∧
    Forall (Forall (λ x, (0 <= x)%R)) K.
Proof.
  apply (similarities_not_negative demo_customers demo_products 3 3
           ["High"; "Low"; "Medium"] [150000; 50000; 250000]
           ["High"; "Medium"; "Low"] [750000; 0; 200]).
  - repeat split; reflexivity.
  - frame_rows.
  - frame_rows.
  - lia.
  - lia.
  - intros s Hs. apply list_elem_of_In in Hs. apply list_elem_of_In.
    simpl in *. tauto.
  - discriminate.
  - discriminate.
  - repeat constructor; lia.
  - repeat constructor; lia.
Defined.

(** * Further properties of the data access layer *)

(** ** Creating the tables *)

Lemma create_table_keeps (name : string) (cols : list string) (pk : string)
    (d : database) (other : string) (t : table) :
  d !! other = Some t → create_table name cols pk d !! other = Some t.
Proof.
  intros H. unfold create_table.
  destruct (d !! name) eqn:E; [done|].
  rewrite lookup_insert_ne; [done | congruence].
Qed.

Lemma create_table_exists (name : string) (cols : list string) (pk : string)
    (d : database) :
  is_Some (create_table name cols pk d !! name).
Proof.
  unfold create_table. destruct (d !! name) eqn:E; [by rewrite E|].
  rewrite lookup_insert_eq. eauto.
Qed.

Lemma create_table_present (name : string) (cols : list string) (pk : string)
    (d : database) :
  is_Some (d !! name) → create_table name cols pk d = d.
Proof. intros [t H]. unfold create_table. by rewrite H. Qed.

Lemma create_table_other (name : string) (cols : list string) (pk : string)
    (d : database) (other : string) :
  other ≠ name → create_table name cols pk d !! other = d !! other.
Proof.
  intros H. unfold create_table. destruct (d !! name); [done|].
  by rewrite lookup_insert_ne.
Qed.

Lemma create_table_is_Some (name : string) (cols : list string) (pk : string)
    (d : database) (other : string) :
  is_Some (d !! other) → is_Some (create_table name cols pk d !! other).
Proof. intros [t H]. rewrite (create_table_keeps _ _ _ _ _ _ H). eauto. Qed.

(** X11. [create_tables] never touches a table that exists, with its rows;
    after it the four tables exist; every other name of the store is as
    before; and running it a second time changes nothing. *)
Theorem create_tables_keeps_and_is_idempotent (d : database) :
  (∀ name t, d !! name = Some t → create_tables d !! name = Some t) ∧
  Forall (λ name, is_Some (create_tables d !! name))
         ["referrers"; "customers"; "referrals"; "products"] ∧
  (∀ name, name ∉ ["referrers"; "customers"; "referrals"; "products"] →
           create_tables d !! name = d !! name) ∧
  create_tables (create_tables d) = create_tables d.
Proof.
  assert (Forall (λ name, is_Some (create_tables d !! name))
            ["referrers"; "customers"; "referrals"; "products"]) as Hall.
  { unfold create_tables. repeat constructor.
    - do 3 apply create_table_is_Some. apply create_table_exists.
    - do 2 apply create_table_is_Some. apply create_table_exists.
    - apply create_table_is_Some. apply create_table_exists.
    - apply create_table_exists. }
  split; [|split; [exact Hall | split]].
  - intros name t H. unfold create_tables. by do 4 apply create_table_keeps.
  - intros name Hname. unfold create_tables.
    rewrite !not_elem_of_cons in Hname.
    destruct Hname as (H1 & H2 & H3 & H4 & _).
    by rewrite !create_table_other.
  - rewrite !Forall_cons in Hall. destruct Hall as (H1 & H2 & H3 & H4 & _).
    set (d' := create_tables d) in *. unfold create_tables.
    rewrite (create_table_present "referrers") by done.
    rewrite (create_table_present "customers") by done.
    rewrite (create_table_present "referrals") by done.
    by rewrite (create_table_present "products").
Qed.

(** ** Inserting rows *)

Lemma execute_insert_Ok (name : string) (cols : list string) (vals : list value)
    (d : database) (t : table) :
  d !! name = Some t → cols ⊆ columns t →
  execute_insert name cols vals d
    = Ok (<[name := Table (columns t) (primary_key t)
                          (rows t ++ [new_row t cols vals])]> d).
Proof.
  intros Ht Hcols. unfold execute_insert. rewrite Ht.
  destruct (list_find _ cols) as [[i c]|] eqn:Hfind; [|done].
  apply list_find_Some in Hfind as (Hi & Hc & _).
  exfalso. apply Hc, Hcols. by eapply list_elem_of_lookup_2.
Qed.

Lemma execute_insert_Ok_inv (name : string) (cols : list string)
    (vals : list value) (d d' : database) :
  execute_insert name cols vals d = Ok d' →
  ∃ t, d !! name = Some t ∧ cols ⊆ columns t ∧
       d' = <[name := Table (columns t) (primary_key t)
                            (rows t ++ [new_row t cols vals])]> d.
Proof.
  unfold execute_insert. destruct (d !! name) as [t|]; [|discriminate].
  destruct (list_find _ cols) as [[i c]|] eqn:Hfind; [discriminate|].
  intros [= <-]. exists t. split; [done|]. split; [|done].
  apply list_find_None in Hfind. rewrite Forall_forall in Hfind.
  intros c Hc. specialize (Hfind c Hc). cbn in Hfind.
  by destruct (decide (c ∈ columns t)).
Qed.

(** ** Seeding *)

(** X12. As long as the caches are not cleared the store is seeded at most
    once: after a call of [insert_synthetic_data] that has returned, a
    further call returns at once and leaves the store and the page as they
    are; it adds no row a second time. *)
Theorem insert_synthetic_data_runs_once (a : app) :
  let first := insert_synthetic_data_memoised (false, a) in
  first.1 = Ok tt →
  first.2.1 = true ∧
  insert_synthetic_data_memoised first.2 = (Ok tt, first.2).
Proof.
  cbv zeta. unfold insert_synthetic_data_memoised.
  destruct (insert_synthetic_data a) as [[[]|e] a']; [|discriminate].
  intros _. split; reflexivity.
Qed.

Lemma insert_synthetic_data_runs_once_witness :
  (insert_synthetic_data_memoised (false, App (create_tables ∅) [])).2.1
    = true ∧
  insert_synthetic_data_memoised
    (insert_synthetic_data_memoised (false, App (create_tables ∅) [])).2
    = (Ok tt,
       (insert_synthetic_data_memoised (false, App (create_tables ∅) [])).2).
Proof.
  apply (insert_synthetic_data_runs_once (App (create_tables ∅) [])).
  reflexivity.
Defined.

(** X13. Seeding is all or nothing: unless the body of
    [insert_synthetic_data] returns, the store and the page are exactly as
    before, also when some of the four statements had gone through before
    one was rejected. *)
Theorem insert_synthetic_data_all_or_nothing (a : app) :
  (insert_synthetic_data a).1 = Ok tt ∨ (insert_synthetic_data a).2 = a.
Proof.
  unfold insert_synthetic_data.
  rewrite bind_run. unfold connect. cbv beta iota.
  repeat (rewrite bind_run, lift_run;
          match goal with
          | |- context [execute_insert_many ?n ?c ?v ?d] =>
              destruct (execute_insert_many n c v d); [|by right]
          end; cbv beta iota).
  by left.
Qed.

(** ** Reading, once the file is open *)

(** X15. Once [sqlite3.connect] has succeeded, [run_read_sql] closes the
    connection exactly once whatever the query does: it returns the frame
    that was read; on an SQLite error it prints the error and returns the
    empty frame; any other exception is passed on, after the connection has
    been closed. *)
Theorem run_read_sql_closes_the_connection (c : nat)
    (read : string → nat → result DataFrame) (query : string) :
  let run := run_read_sql (Storage (Ok c) read) query fresh_locals in
  closed run.2 = [c] ∧
  match read query c with
  | Ok d => run.1 = Ok d ∧ printed run.2 = []
  | Raise e =>
      if is_sqlite_error e
      then run.1 = Ok ∅ ∧ printed run.2 = ["An error occurred: " +:+ message e]
      else run.1 = Raise e ∧ printed run.2 = []
  end.
Proof.
  unfold run_read_sql, try_finally, try_except, mbind, M_bind, lift.
  cbn. destruct (read query c) as [d|e]; cbn; [done|].
  destruct (is_sqlite_error e); cbn; done.
Qed.

(** ** The referral form, in general *)

(** X17. Whatever is submitted, the referral form either leaves the store
    as it was and shows no success message, or appends exactly one row to
    the [referrals] table, with the customer name as typed and the status
    'Pending', and then shows the success message. *)
Theorem submit_referral_nothing_or_one_row (referrer_name product_name : value)
    (customer_name now : string) (a : app) :
  let run := submit_referral referrer_name customer_name product_name now a in
  (db run.2 = db a ∧
   (ui run.2 = ui a ∨
    ui run.2 = ui a ++ [st_error "Please enter a customer name."])) ∨
  (∃ t referrer_id product_id,
     db a !! "referrals" = Some t ∧
     run.1 = Ok tt ∧
     db run.2 = <["referrals" :=
                    Table (columns t) (primary_key t)
                          (rows t ++ [new_row t
                             ["user_id"; "customer_name"; "product_id"; "status";
                              "timestamp"]
                             [referrer_id; VText customer_name; product_id;
                              VText "Pending"; VText now]])]> (db a) ∧
     ui run.2 = ui a ++ [st_success "Referral submitted successfully!"]).
Proof.
  cbv zeta. unfold submit_referral.
  destruct (negb (truthy (strip customer_name))); [left; cbn; auto|].
  rewrite bind_run.
  pose proof (get_referrers_dict_state a) as S1.
  destruct (get_referrers_dict a) as [[referrers|e] a1]; cbn in S1; subst a1;
    [|left; cbn; auto].
  rewrite bind_run, lift_run.
  destruct (dict_getitem referrers referrer_name) as [referrer_id|];
    [|left; cbn; auto].
  rewrite bind_run.
  pose proof (get_products_dict_state a) as S2.
  destruct (get_products_dict a) as [[products|e] a1]; cbn in S2; subst a1;
    [|left; cbn; auto].
  rewrite bind_run, lift_run.
  destruct (dict_getitem products product_name) as [product_id|];
    [|left; cbn; auto].
  rewrite bind_run. unfold connect. rewrite bind_run, lift_run.
  destruct (execute_insert "referrals" _ _ (db a)) as [d'|e] eqn:Hrun;
    [|left; cbn; auto].
  right. apply execute_insert_Ok_inv in Hrun as (t & Ht & _ & ->).
  exists t, referrer_id, product_id. cbn. auto.
Qed.

(** ** Dictionaries of names *)

Lemma dict_getitem_filter (d : list (value * value)) (k other : value) :
  k ≠ other →
  dict_getitem (filter (λ kv, kv.1 ≠ other) d) k = dict_getitem d k.
Proof.
  intros Hne. unfold dict_getitem.
  induction d as [|[k' v] d IH]; [done|].
  rewrite filter_cons. cbn [fst].
  destruct (decide (k' ≠ other)) as [Hk|Hk].
  - cbn. destruct (decide (k' = k)); [done|].
    cbn in IH. by destruct (list_find _ (filter _ d)) as [[]|],
                          (list_find _ d) as [[]|]; cbn in *; congruence.
  - cbn. destruct (decide (k' = k)) as [->|_]; [by destruct Hk; intros ->|].
    rewrite IH. by destruct (list_find _ d) as [[]|].
Qed.

Lemma to_dict_snoc (t : table) (key val : string) (rs : list (list value))
    (row : list value) :
  foldl (λ d row, (cell t key row, cell t val row)
                    :: filter (λ kv, kv.1 ≠ cell t key row) d) [] (rs ++ [row])
  = (cell t key row, cell t val row)
      :: filter (λ kv, kv.1 ≠ cell t key row)
           (foldl (λ d row, (cell t key row, cell t val row)
                              :: filter (λ kv, kv.1 ≠ cell t key row) d) [] rs).
Proof. by rewrite foldl_app. Qed.

Lemma dict_getitem_cons_ne (d : list (value * value)) (k k' v' : value) :
  k' ≠ k → dict_getitem ((k', v') :: d) k = dict_getitem d k.
Proof.
  intros Hne. unfold dict_getitem. cbn.
  destruct (decide (k' = k)); [done|].
  by destruct (list_find _ d) as [[]|].
Qed.

Lemma dict_getitem_cons_eq (d : list (value * value)) (k v : value) :
  dict_getitem ((k, v) :: d) k = Ok v.
Proof. unfold dict_getitem. cbn. by destruct (decide (k = k)). Qed.

Lemma to_dict_rows_last (t : table) (key val : string)
    (before after : list (list value)) (row : list value) :
  Forall (λ r, cell t key r ≠ cell t key row) after →
  dict_getitem
    (foldl (λ d row, (cell t key row, cell t val row)
                       :: filter (λ kv, kv.1 ≠ cell t key row) d)
           [] (before ++ row :: after))
    (cell t key row)
  = Ok (cell t val row).
Proof.
  induction after as [|r after IH] using rev_ind; intros Hafter.
  - rewrite to_dict_snoc. apply dict_getitem_cons_eq.
  - apply Forall_app in Hafter as [Hafter Hr].
    rewrite Forall_singleton in Hr. cbv beta in Hr.
    replace (before ++ row :: after ++ [r])
      with ((before ++ row :: after) ++ [r])
      by (rewrite <- (assoc_L (++)); reflexivity).
    rewrite to_dict_snoc, dict_getitem_cons_ne by done.
    rewrite dict_getitem_filter by done. by apply IH.
Qed.

(** X18. In a dictionary built from a table, a key resolves to the value
    of the last row that has it: with two referrers of one name, the id of
    the later one is the one the form gets. *)
Theorem to_dict_last_row_wins (t : table) (key val : string)
    (before after : list (list value)) (row : list value) :
  rows t = before ++ row :: after →
  Forall (λ r, cell t key r ≠ cell t key row) after →
  dict_getitem (to_dict t key val) (cell t key row) = Ok (cell t val row).
Proof.
  intros Hrows Hafter. unfold to_dict. rewrite Hrows.
  by apply to_dict_rows_last.
Qed.

Lemma to_dict_last_row_wins_witness :
  dict_getitem
    (to_dict (Table ["user_id"; "name"] "user_id"
                    [[VInt 1; VText "Alex Brown"]; [VInt 2; VText "Sam Miller"];
                     [VInt 3; VText "Alex Brown"]])
             "name" "user_id")
    (cell (Table ["user_id"; "name"] "user_id"
                 [[VInt 1; VText "Alex Brown"]; [VInt 2; VText "Sam Miller"];
                  [VInt 3; VText "Alex Brown"]])
          "name" [VInt 3; VText "Alex Brown"])
  = Ok (cell (Table ["user_id"; "name"] "user_id"
                    [[VInt 1; VText "Alex Brown"]; [VInt 2; VText "Sam Miller"];
                     [VInt 3; VText "Alex Brown"]])
             "user_id" [VInt 3; VText "Alex Brown"]).
Proof.
  apply (to_dict_last_row_wins _ "name" "user_id"
           [[VInt 1; VText "Alex Brown"]; [VInt 2; VText "Sam Miller"]] []).
  - reflexivity.
  - constructor.
Defined.

(** X19. A key that no row of the table has is not in the dictionary:
    looking it up raises [KeyError]. *)
Theorem to_dict_absent_key (t : table) (key val : string) (k : value) :
  Forall (λ r, cell t key r ≠ k) (rows t) →
  dict_getitem (to_dict t key val) k = Raise (KeyError "").
Proof.
  unfold to_dict. induction (rows t) as [|r rs IH] using rev_ind; intros H.
  - reflexivity.
  - apply Forall_app in H as [Hrs Hr]. rewrite Forall_singleton in Hr.
    cbv beta in Hr.
    rewrite to_dict_snoc, dict_getitem_cons_ne by done.
    destruct (decide (k = cell t key r)) as [->|Hne]; [done|].
    rewrite dict_getitem_filter by done. by apply IH.
Qed.

Lemma to_dict_absent_key_witness :
  dict_getitem
    (to_dict (Table ["user_id"; "name"] "user_id"
                    [[VInt 1; VText "Alex Brown"]]) "name" "user_id")
    VNull
  = Raise (KeyError "").
Proof.
  apply (to_dict_absent_key
           (Table ["user_id"; "name"] "user_id" [[VInt 1; VText "Alex Brown"]])
           "name" "user_id" VNull).
  repeat constructor. discriminate.
Defined.

(** * Properties of the memoised accessors *)

Lemma cache_frame_hit (key : string) (body : M Cached.session DataFrame)
    (s : Cached.session) (df : DataFrame) :
  Cached.frames_cache s !! key = Some df →
  Cached.cache_frame key body s = (Ok df, s).
Proof. intros H. unfold Cached.cache_frame. by rewrite H. Qed.

Lemma cache_frame_Ok (key : string) (body : M Cached.session DataFrame)
    (s s1 : Cached.session) (df : DataFrame) :
  Cached.cache_frame key body s = (Ok df, s1) →
  Cached.frames_cache s1 !! key = Some df.
Proof.
  unfold Cached.cache_frame.
  destruct (Cached.frames_cache s !! key) as [df'|] eqn:E.
  - by intros [= <- <-].
  - destruct (body s) as [[df'|e] s']; intros [= <- <-]; cbn.
    apply lookup_insert_eq.
Qed.

Lemma cache_dict_hit (key : string) (body : M Cached.session Cached.dict)
    (s : Cached.session) (d : Cached.dict) :
  Cached.dicts_cache s !! key = Some d →
  Cached.cache_dict key body s = (Ok d, s).
Proof. intros H. unfold Cached.cache_dict. by rewrite H. Qed.

Lemma cache_dict_Ok (key : string) (body : M Cached.session Cached.dict)
    (s s1 : Cached.session) (d : Cached.dict) :
  Cached.cache_dict key body s = (Ok d, s1) →
  Cached.dicts_cache s1 !! key = Some d.
Proof.
  unfold Cached.cache_dict.
  destruct (Cached.dicts_cache s !! key) as [d'|] eqn:E.
  - by intros [= <- <-].
  - destruct (body s) as [[d'|e] s']; intros [= <- <-]; cbn.
    apply lookup_insert_eq.
Qed.

(** X20. What [get_customers] has returned once, it returns again on every
    later call without consulting the store, whatever the store holds by
    then and even if it can no longer be opened. *)
Theorem get_customers_is_memoised (env env' : storage)
    (s s1 : Cached.session) (df : DataFrame) :
  Cached.get_customers env s = (Ok df, s1) →
  Cached.get_customers env' s1 = (Ok df, s1).
Proof.
  intros H. apply cache_frame_Ok in H. by apply cache_frame_hit.
Qed.

Lemma get_customers_is_memoised_witness :
  Cached.get_customers unopenable
    (Cached.get_customers (Storage (Ok 1%nat) (λ _ _, Ok demo_customers))
       Cached.fresh).2
  = (Ok demo_customers,
     (Cached.get_customers (Storage (Ok 1%nat) (λ _ _, Ok demo_customers))
        Cached.fresh).2).
Proof.
  apply (get_customers_is_memoised
           (Storage (Ok 1%nat) (λ _ _, Ok demo_customers)) unopenable
           Cached.fresh).
  apply run_returns. reflexivity.
Defined.

Lemma refreshed_frames (s : Cached.session) (key : string) :
  key ∈ ["get_customers"; "get_products"; "get_referrals"; "get_referrers"] →
  Cached.frames_cache (Cached.refresh_data s).2 !! key = None.
Proof.
  intros H. cbn.
  rewrite !elem_of_cons in H.
  destruct H as [-> | [-> | [-> | [-> | H]]]]; [| | | | by inversion H];
    by rewrite ?lookup_delete_ne by done; rewrite lookup_delete_eq.
Qed.

(** X22. After "Refresh Data", each of the four table accessors reads the
    store anew: what it returns is what [run_read_sql] returns on its query
    at that moment. *)
Theorem refresh_data_rereads_the_tables (env : storage) (s : Cached.session) :
  ((Cached.refresh_data ;; Cached.get_customers env) s).1
    = (run_read_sql env "SELECT * FROM customers" fresh_locals).1 ∧
  ((Cached.refresh_data ;; Cached.get_products env) s).1
    = (run_read_sql env "SELECT * FROM products" fresh_locals).1 ∧
  ((Cached.refresh_data ;; Cached.get_referrals env) s).1
    = (run_read_sql env "SELECT * FROM referrals" fresh_locals).1 ∧
  ((Cached.refresh_data ;; Cached.get_referrers env) s).1
    = (run_read_sql env "SELECT * FROM referrers" fresh_locals).1.
Proof.
  repeat split; rewrite bind_run; cbn -[run_read_sql];
    unfold Cached.get_customers, Cached.get_products, Cached.get_referrals,
      Cached.get_referrers, Cached.cache_frame; cbn -[run_read_sql];
    rewrite ?lookup_delete_ne by done; rewrite lookup_delete_eq;
    unfold Cached.read_sql; cbn -[run_read_sql];
    by destruct (run_read_sql _ _ _) as [[] ?].
Qed.

(** X23. "Refresh Data" does not reach the dictionaries: the dictionary
    [get_customers_dict] has returned is returned again after a refresh,
    whatever the store holds by then, so that it can disagree with the
    customers [get_customers] then reads. *)
Theorem refresh_data_keeps_the_dictionaries (reversed : bool)
    (env env' : storage) (s s1 : Cached.session) (d : Cached.dict) :
  Cached.get_customers_dict reversed env s = (Ok d, s1) →
  ((Cached.refresh_data ;; Cached.get_customers_dict reversed env') s1).1
    = Ok d.
Proof.
  intros H. apply cache_dict_Ok in H.
  rewrite bind_run. cbn. unfold Cached.get_customers_dict.
  by rewrite (cache_dict_hit _ _ _ d).
Qed.

Lemma refresh_data_keeps_the_dictionaries_witness :
  ((Cached.refresh_data ;; Cached.get_customers_dict false unopenable)
     (Cached.get_customers_dict false
        (Storage (Ok 1%nat) (λ _ _, Ok named_customers)) Cached.fresh).2).1
    = Ok [(VInt 3, VText "Jordan Garcia"); (VInt 2, VText "Taylor Davis");
          (VInt 1, VText "Alex Brown")].
Proof.
  apply (refresh_data_keeps_the_dictionaries false
           (Storage (Ok 1%nat) (λ _ _, Ok named_customers))
           unopenable Cached.fresh).
  apply run_returns. reflexivity.
Defined.

(** X24. After "Clear Cache" the dictionary is built again from the rows
    the store holds at that moment. *)
Theorem clear_cache_rebuilds_the_dictionaries (reversed : bool) (c : nat)
    (read : string → nat → result DataFrame) (df : DataFrame)
    (s : Cached.session) :
  read "SELECT * FROM customers" c = Ok df →
  ((Cached.clear_cache ;; Cached.get_customers_dict reversed (Storage (Ok c) read))
     s).1
    = if reversed then Cached.frame_to_dict df "customer_name" "id"
      else Cached.frame_to_dict df "id" "customer_name".
Proof.
  intros Hread.
  pose proof (run_read_sql_rows c read _ df Hread) as Hr.
  rewrite bind_run. cbn -[run_read_sql].
  unfold Cached.get_customers_dict, Cached.cache_dict. cbn -[run_read_sql].
  rewrite lookup_empty, bind_run.
  unfold Cached.get_customers, Cached.cache_frame. cbn -[run_read_sql].
  rewrite lookup_empty. unfold Cached.read_sql. rewrite Hr.
  cbn -[run_read_sql Cached.frame_to_dict].
  destruct reversed; rewrite lift_run;
    by destruct (Cached.frame_to_dict df _ _).
Qed.

Lemma clear_cache_rebuilds_the_dictionaries_witness :
  ((Cached.clear_cache ;;
    Cached.get_customers_dict false
      (Storage (Ok 1%nat) (λ _ _, Ok named_customers))) Cached.fresh).1
    = if false then Cached.frame_to_dict named_customers "customer_name" "id"
      else Cached.frame_to_dict named_customers "id" "customer_name".
Proof.
  apply (clear_cache_rebuilds_the_dictionaries false 1
           (λ _ _, Ok named_customers) named_customers Cached.fresh).
  reflexivity.
Defined.

(** * The new-customer form *)

(** X25. The handler of the customer form is never run.  The form is drawn
    under [if col3.button("New Customer")], and the run that a click on
    "Add Customer" starts finds that button [False]: nothing is shown,
    [add_customer] is not called and the store is not touched, whatever was
    typed.  Every run of the page leaves the store as it was and adds
    nothing to the page but, when "New Customer" started it, the title of
    the form. *)
Theorem new_customer_never_adds (trigger : option widget)
    (customer_name risk_profile : string) (net_worth : Z) (a : app) :
  new_customer (Some add_customer_button)
               customer_name net_worth risk_profile a = (Ok tt, a) ∧
  (new_customer trigger customer_name net_worth risk_profile a = (Ok tt, a) ∨
   new_customer trigger customer_name net_worth risk_profile a
     = (Ok tt, App (db a) (ui a ++ [st_title "Submit a New Customer"]))).
Proof.
  split; [reflexivity|]. unfold new_customer.
  destruct (button trigger new_customer_button) eqn:Hb; [right | by left].
  by apply bool_decide_eq_true in Hb as ->.
Qed.

(** * Formatting for display *)

Lemma hide_loop_lookup (names : list string) (shown : DataFrame) (c : string) :
  foldl (λ shown col, if contains "id" col then delete col shown else shown)
        shown names !! c
  = if contains "id" c && bool_decide (c ∈ names) then None else shown !! c.
Proof.
  revert shown. induction names as [|n names IH]; intros shown; cbn.
  - by rewrite andb_false_r.
  - rewrite IH. destruct (contains "id" c) eqn:Hc; cbn.
    + destruct (decide (c = n)) as [->|Hne].
      * rewrite Hc, lookup_delete_eq.
        rewrite (bool_decide_eq_true_2 (n ∈ n :: names)) by left.
        by destruct (bool_decide _).
      * rewrite (bool_decide_ext (c ∈ n :: names) (c ∈ names)).
        2:{ rewrite elem_of_cons. tauto. }
        destruct (bool_decide (c ∈ names)); [done|].
        destruct (contains "id" n); [by rewrite lookup_delete_ne | done].
    + destruct (contains "id" n) eqn:Hn; [|done].
      rewrite lookup_delete_ne; [done|]. intros ->. congruence.
Qed.

(** X27. With the index hidden, [display_beautified_dataframe] passes a
    column on exactly when its name does not contain [id]: the keys [id] and
    [user_id] are hidden, and so is any other column whose name happens to
    contain these two letters. *)
Theorem hide_ids_lookup (df : DataFrame) (c : string) :
  hide_ids df !! c = if contains "id" c then None else df !! c.
Proof.
  unfold hide_ids. rewrite hide_loop_lookup.
  set (df_display := if decide (is_Some (df !! "id")) then delete "id" df else df).
  destruct (contains "id" c) eqn:Hc; cbn; [|].
  - destruct (bool_decide_reflect (c ∈ (map_to_list df_display).*1)) as [|Hno];
      [done|].
    destruct (df_display !! c) as [col|] eqn:E; [|done].
    exfalso. apply Hno. apply list_elem_of_fmap. exists (c, col).
    split; [done|]. by apply elem_of_map_to_list.
  - subst df_display. destruct (decide _); [|done].
    rewrite lookup_delete_ne; [done|]. intros <-. by vm_compute in Hc.
Qed.

Lemma replace_char_removes (a b : ascii) (s : string) :
  a ≠ b → a ∉ list_ascii_of_string (replace_char a b s).
Proof.
  intros Hne. induction s as [|c s IH]; cbn.
  - apply not_elem_of_nil.
  - apply not_elem_of_cons. split; [|done].
    destruct (Ascii.eqb_spec c a); congruence.
Qed.

Lemma case_change_keeps_underscore_out (c : ascii) :
  c ≠ "_"%char → to_lower c ≠ "_"%char ∧ to_upper c ≠ "_"%char.
Proof.
  destruct c as [[] [] [] [] [] [] [] []]; vm_compute; intros H;
    split; congruence.
Qed.

Lemma title_from_keeps_underscore_out (b : bool) (s : string) :
  "_"%char ∉ list_ascii_of_string s →
  "_"%char ∉ list_ascii_of_string (title_from b s).
Proof.
  revert b. induction s as [|c s IH]; intros b; cbn; [done|].
  intros H. apply not_elem_of_cons in H as [Hc Hs].
  apply not_elem_of_cons. split; [|by apply IH].
  destruct (case_change_keeps_underscore_out c) as [Hl Hu]; [congruence|].
  destruct b; congruence.
Qed.

(** X28. No display name holds an underscore: for a frame with ASCII
    column names, whether the index is hidden or not, every column name
    handed to [st.dataframe] is free of [_]. *)
Theorem display_names_have_no_underscore (df : DataFrame) (no_index : bool)
    (name : string) :
  map_Forall (λ col _, is_ascii col = true) df →
  name ∈ (display_beautified_dataframe df no_index).1.1.*1 →
  "_"%char ∉ list_ascii_of_string name.
Proof.
  unfold display_beautified_dataframe. cbn [fst].
  rewrite <- list_fmap_compose. intros _ H.
  apply list_elem_of_fmap in H as (nc & -> & _). cbn.
  apply title_from_keeps_underscore_out, replace_char_removes. discriminate.
Qed.

Lemma display_names_have_no_underscore_witness :
  "_"%char ∉ list_ascii_of_string "Net Worth".
Proof.
  apply (display_names_have_no_underscore demo_customers true "Net Worth").
  - unfold demo_customers, make_customers.
    repeat (apply map_Forall_insert_2; [reflexivity|]).
    apply map_Forall_empty.
  - apply list_elem_of_In. vm_compute. tauto.
Defined.
